(** * SmartBackup: manifest diffing, manifest persistence, backup and restore

    A shallow embedding of the parts of [smartbackup] that decide incremental
    backups ([smartbackup/manifest/base.py], [manifest/json_manifest.py],
    [models.py]), exclusion filtering ([core/scanner.py]), and the entry guards
    and per-file conflict handling of [core/engine.py] and [core/restore.py].

    Python [str] values are modelled as their sequence of code points
    ([pystr]); Python [float] values as Rocq's primitive binary64 floats, so
    comparisons such as [a > b] are [PrimFloat.ltb b a] exactly as CPython
    evaluates them.  A Python [dict] is an association list in insertion
    order with unique keys. *)

From Stdlib Require Import String Ascii List ZArith Bool Floats Lia.
From Stdlib Require Import Permutation.
Import ListNotations.
Open Scope Z_scope.

(** ** Python strings *)

Definition pystr := list Z.

(** A string literal of the source, as code points. *)
Definition lit (s : string) : pystr :=
  map (fun a => Z.of_nat (nat_of_ascii a)) (list_ascii_of_string s).

Definition str_eqb (a b : pystr) : bool :=
  if list_eq_dec Z.eq_dec a b then true else false.

(** Truthiness of a [str]: non-empty. *)
Definition str_truthy (s : pystr) : bool :=
  match s with [] => false | _ => true end.

(** Truthiness of an [Optional[str]]: not [None] and non-empty. *)
Definition opt_str_truthy (s : option pystr) : bool :=
  match s with Some s' => str_truthy s' | None => false end.

(** [str.startswith]. *)
Fixpoint startswith (s prefix : pystr) : bool :=
  match prefix, s with
  | [], _ => true
  | c :: prefix', d :: s' => Z.eqb c d && startswith s' prefix'
  | _ :: _, [] => false
  end.

(** ** Python dicts as association lists *)

Module Dict.
Definition t (V : Type) := list (pystr * V).

  (** [d.get(k)] *)
Definition get {V} (k : pystr) (d : t V) : option V :=
    option_map snd (find (fun kv => str_eqb (fst kv) k) d).

  (** [d[k] = v]: replaces the value in place, or appends a new key. *)
Definition set {V} (k : pystr) (v : V) (d : t V) : t V :=
    if existsb (fun kv => str_eqb (fst kv) k) d
    then map (fun kv => if str_eqb (fst kv) k then (k, v) else kv) d
    else d ++ [(k, v)].

  (** [d.pop(k, None)]: the keys are unique, so this drops the one entry. *)
Definition pop {V} (k : pystr) (d : t V) : t V :=
    filter (fun kv => negb (str_eqb (fst kv) k)) d.

Definition keys {V} (d : t V) : list pystr := map fst d.
Definition values {V} (d : t V) : list V := map snd d.
End Dict.

(** ** [models.FileInfo] *)

Module FileInfo.
Record t := mk {
    path : pystr;
    relative_path : pystr;   (* str(relative_path) *)
    size : Z;
    mtime : float;
    file_hash : option pystr
  }.

  (** [FileInfo.needs_update(self, other, use_hash)] *)
Definition needs_update (self other : t) (use_hash : bool) : bool :=
    if negb (Z.eqb (size self) (size other)) then true
    else if PrimFloat.ltb (mtime other) (mtime self) then true
    else if use_hash && opt_str_truthy (file_hash self) && opt_str_truthy (file_hash other)
    then match file_hash self, file_hash other with
         | Some a, Some b => negb (str_eqb a b)
         | _, _ => false
         end
    else false.
End FileInfo.

(** ** [manifest.base.ManifestEntry] *)

Module ManifestEntry.
Record t := mk {
    relative_path : pystr;
    file_hash : pystr;
    size : Z;
    mtime : float;
    permissions : Z;
    backed_up_at : float
  }.

  (** [ManifestEntry.has_changed(self, file_info)] *)
Definition has_changed (self : t) (file_info : FileInfo.t) : bool :=
    if negb (Z.eqb (FileInfo.size file_info) (size self)) then true
    else if PrimFloat.ltb (mtime self) (FileInfo.mtime file_info) then true
    else if opt_str_truthy (FileInfo.file_hash file_info) && str_truthy (file_hash self)
    then negb (match FileInfo.file_hash file_info with
               | Some h => str_eqb h (file_hash self)
               | None => false
               end)
    else false.

  (** [ManifestEntry.from_file_info(file_info, backed_up_at)]; [st_mode] is
      the result of [file_info.path.stat().st_mode], [None] when it raises. *)
Definition from_file_info (file_info : FileInfo.t) (st_mode : option Z)
      (backed_up_at : float) : t :=
    {| relative_path := FileInfo.relative_path file_info;
       file_hash := match FileInfo.file_hash file_info with   (* file_hash or "" *)
                    | Some h => h
                    | None => []
                    end;
       size := FileInfo.size file_info;
       mtime := FileInfo.mtime file_info;
       permissions := match st_mode with Some m => m | None => 420 (* 0o644 *) end;
       backed_up_at := backed_up_at |}.
End ManifestEntry.

(** The stored fields of an entry: hash, size, mtime, permissions and
    [backed_up_at]. *)
Definition entry_fields (e : ManifestEntry.t) : pystr * Z * float * Z * float :=
  (ManifestEntry.file_hash e, ManifestEntry.size e, ManifestEntry.mtime e,
   ManifestEntry.permissions e, ManifestEntry.backed_up_at e).

(** ** [manifest.base.Manifest] *)

(** A [datetime], kept as the text its [isoformat()] gives. *)
Record datetime := mkDatetime { isoformat : pystr }.

Inductive ManifestFormat := JSON | SQLITE.

Definition format_value (f : ManifestFormat) : pystr :=
  match f with JSON => lit "json" | SQLITE => lit "sqlite" end.

Module Manifest.
Record t := mk {
    version : Z;
    format : ManifestFormat;
    created : datetime;
    updated : datetime;
    source : pystr;
    hostname : pystr;
    backup_count : Z;
    entries : Dict.t ManifestEntry.t
  }.

Definition total_files (m : t) : Z := Z.of_nat (length (entries m)).

Definition total_size (m : t) : Z :=
    fold_right Z.add 0 (map ManifestEntry.size (Dict.values (entries m))).

Definition get_entry (m : t) (p : pystr) : option ManifestEntry.t :=
    Dict.get p (entries m).

Definition with_entries (m : t) (es : Dict.t ManifestEntry.t) : t :=
    mk (version m) (format m) (created m) (updated m) (source m) (hostname m)
       (backup_count m) es.

Definition with_updated (m : t) (d : datetime) : t :=
    mk (version m) (format m) (created m) d (source m) (hostname m)
       (backup_count m) (entries m).

  (** [add_entry]: [now] is the [datetime.now()] the method stamps. *)
Definition add_entry (m : t) (e : ManifestEntry.t) (now : datetime) : t :=
    with_updated (with_entries m (Dict.set (ManifestEntry.relative_path e) e (entries m))) now.

  (** [remove_entry]: stamps [updated] only when an entry was removed. *)
Definition remove_entry (m : t) (p : pystr) (now : datetime) : t :=
    match get_entry m p with
    | Some _ => with_updated (with_entries m (Dict.pop p (entries m))) now
    | None => m
    end.
End Manifest.

(** ** [manifest.base.ManifestDiff] and [ManifestManager.diff] *)

Module ManifestDiff.
Record t := mk {
    new_files : list FileInfo.t;
    modified_files : list FileInfo.t;
    deleted_paths : list pystr;
    unchanged_files : list FileInfo.t
  }.
Definition empty : t := mk [] [] [] [].

  (** Truthiness of a [list]: non-empty. *)
Definition list_truthy {A} (l : list A) : bool := match l with [] => false | _ => true end.

  (** [ManifestDiff.has_changes] *)
Definition has_changes (d : t) : bool :=
    list_truthy (new_files d) || list_truthy (modified_files d) || list_truthy (deleted_paths d).

  (** [ManifestDiff.files_to_backup] *)
Definition files_to_backup (d : t) : list FileInfo.t := new_files d ++ modified_files d.
End ManifestDiff.

(** One iteration of [for file_info in source_files.values()]: the loop
    state is [(result, seen_paths)]. *)
Definition diff_step (manifest : Manifest.t)
    (st : ManifestDiff.t * list pystr) (file_info : FileInfo.t)
    : ManifestDiff.t * list pystr :=
  let '(r, seen_paths) := st in
  let relative_path := FileInfo.relative_path file_info in
  let seen_paths := relative_path :: seen_paths in
  match Manifest.get_entry manifest relative_path with
  | None =>
      (ManifestDiff.mk (ManifestDiff.new_files r ++ [file_info]) (ManifestDiff.modified_files r)
         (ManifestDiff.deleted_paths r) (ManifestDiff.unchanged_files r), seen_paths)
  | Some entry =>
      if ManifestEntry.has_changed entry file_info then
        (ManifestDiff.mk (ManifestDiff.new_files r) (ManifestDiff.modified_files r ++ [file_info])
           (ManifestDiff.deleted_paths r) (ManifestDiff.unchanged_files r), seen_paths)
      else
        (ManifestDiff.mk (ManifestDiff.new_files r) (ManifestDiff.modified_files r)
           (ManifestDiff.deleted_paths r) (ManifestDiff.unchanged_files r ++ [file_info]), seen_paths)
  end.

(** [ManifestManager.diff(source_files, manifest)]; [manifest] is the value
    after the [if manifest is None: manifest = self.load()] step. *)
Definition diff (source_files : Dict.t FileInfo.t) (manifest : option Manifest.t)
    : ManifestDiff.t :=
  match manifest with
  | None => ManifestDiff.mk (Dict.values source_files) [] [] []
  | Some m =>
      let '(r, seen_paths) :=
        fold_left (diff_step m) (Dict.values source_files) (ManifestDiff.empty, []) in
      ManifestDiff.mk (ManifestDiff.new_files r) (ManifestDiff.modified_files r)
        (ManifestDiff.deleted_paths r ++
           filter (fun p => negb (existsb (str_eqb p) seen_paths)) (Dict.keys (Manifest.entries m)))
        (ManifestDiff.unchanged_files r)
  end.

(** The list of the diff [diff_step] appends a file to. *)
Inductive bucket := BNew | BModified | BUnchanged.

Definition classify (manifest : Manifest.t) (file_info : FileInfo.t) : bucket :=
  match Manifest.get_entry manifest (FileInfo.relative_path file_info) with
  | None => BNew
  | Some entry => if ManifestEntry.has_changed entry file_info then BModified else BUnchanged
  end.

Definition bucket_eqb (a b : bucket) : bool :=
  match a, b with
  | BNew, BNew | BModified, BModified | BUnchanged, BUnchanged => true
  | _, _ => false
  end.

Definition pystr_eq_dec : forall a b : pystr, {a = b} + {a <> b} := list_eq_dec Z.eq_dec.

(** ** [ManifestManager.update_from_backup] *)

(** [manifest.backup_count += 1] and [manifest.updated = now]. *)
Definition bump_count (m : Manifest.t) (now : datetime) : Manifest.t :=
  Manifest.mk (Manifest.version m) (Manifest.format m) (Manifest.created m) now
    (Manifest.source m) (Manifest.hostname m) (Manifest.backup_count m + 1) (Manifest.entries m).

(** [update_from_backup(manifest, backed_up_files, deleted_paths)].
    [backup_time] is [datetime.now().timestamp()] taken on entry, [now] the
    [datetime.now()] values stamped afterwards, and [st_mode] gives the
    outcome of [file_info.path.stat().st_mode] for each file.  An absent
    [deleted_paths] ([None]) is the empty list. *)
Definition update_from_backup (st_mode : FileInfo.t -> option Z) (backup_time : float)
    (now : datetime) (manifest : Manifest.t) (backed_up_files : list FileInfo.t)
    (deleted_paths : list pystr) : Manifest.t :=
  let manifest :=
    fold_left (fun m file_info =>
                 Manifest.add_entry m
                   (ManifestEntry.from_file_info file_info (st_mode file_info) backup_time) now)
              backed_up_files manifest in
  let manifest :=
    fold_left (fun m path => Manifest.remove_entry m path now) deleted_paths manifest in
  bump_count manifest now.

(** The last file of [files] with relative path [p]: the one whose entry a
    sequence of [add_entry] calls leaves in place. *)
Fixpoint last_with (p : pystr) (files : list FileInfo.t) : option FileInfo.t :=
  match files with
  | [] => None
  | f :: fs =>
      match last_with p fs with
      | Some g => Some g
      | None => if str_eqb (FileInfo.relative_path f) p then Some f else None
      end
  end.

(** ** JSON documents and [Manifest.to_dict] / [Manifest.from_dict] *)

#[local] Set Warnings "-register-all".

(** The Python value [json.load] returns, or [json.dump] is given. *)
Inductive json :=
| JNull
| JBool (b : bool)
| JInt (z : Z)
| JFloat (f : float)
| JStr (s : pystr)
| JList (l : list json)
| JObj (kvs : list (pystr * json)).

(** Python exceptions the manifest code can meet. *)
Inductive exn :=
| JSONDecodeError      (* subclass of ValueError *)
| UnicodeDecodeError   (* subclass of ValueError *)
| UnicodeEncodeError   (* subclass of ValueError *)
| ValueError
| OSError              (* IOError is an alias of OSError *)
| AttributeError
| TypeError.

(** The outcome of a Python call: it returns a value, or raises.  Python
    does not check annotations, so a returned object may hold attribute
    values of other types than its class declares; [typed] is [false] then,
    and [a] holds the declared defaults in those attributes. *)
Inductive pyret (A : Type) :=
| Ret (a : A) (typed : bool)
| Raise (e : exn).
Arguments Ret {A} a typed.
Arguments Raise {A} e.

Definition pybind {A B} (x : pyret A) (k : A -> pyret B) : pyret B :=
  match x with
  | Ret a t => match k a with Ret b t' => Ret b (t && t') | Raise e => Raise e end
  | Raise e => Raise e
  end.

Notation "x <- c ;; k" := (pybind c (fun x => k)) (at level 61, c at next level, right associativity).

Definition ret {A} (a : A) : pyret A := Ret a true.

(** [ManifestEntry.to_dict] *)
Definition entry_to_dict (e : ManifestEntry.t) : json :=
  JObj [(lit "hash", JStr (ManifestEntry.file_hash e));
        (lit "size", JInt (ManifestEntry.size e));
        (lit "mtime", JFloat (ManifestEntry.mtime e));
        (lit "permissions", JInt (ManifestEntry.permissions e));
        (lit "backed_up_at", JFloat (ManifestEntry.backed_up_at e))].

(** [Manifest.to_dict] *)
Definition to_dict (m : Manifest.t) : json :=
  JObj [(lit "version", JInt (Manifest.version m));
        (lit "format", JStr (format_value (Manifest.format m)));
        (lit "created", JStr (isoformat (Manifest.created m)));
        (lit "updated", JStr (isoformat (Manifest.updated m)));
        (lit "source", JStr (Manifest.source m));
        (lit "hostname", JStr (Manifest.hostname m));
        (lit "backup_count", JInt (Manifest.backup_count m));
        (lit "total_files", JInt (Manifest.total_files m));
        (lit "total_size", JInt (Manifest.total_size m));
        (lit "files", JObj (map (fun kv => (fst kv, entry_to_dict (snd kv)))
                                (Manifest.entries m)))].

(** [data.get(key, default)] for an [int], [float] or [str] attribute. *)
Definition get_int (data : Dict.t json) (key : pystr) (default : Z) : pyret Z :=
  match Dict.get key data with
  | None => ret default
  | Some (JInt z) => ret z
  | Some _ => Ret default false
  end.

Definition get_float (data : Dict.t json) (key : pystr) (default : float) : pyret float :=
  match Dict.get key data with
  | None => ret default
  | Some (JFloat f) => ret f
  | Some _ => Ret default false
  end.

Definition get_str (data : Dict.t json) (key : pystr) (default : pystr) : pyret pystr :=
  match Dict.get key data with
  | None => ret default
  | Some (JStr s) => ret s
  | Some _ => Ret default false
  end.

(** [ManifestFormat(value)]: a value that is no member's raises ValueError. *)
Definition ManifestFormat_of (v : json) : pyret ManifestFormat :=
  match v with
  | JStr s => if str_eqb s (lit "json") then ret JSON
              else if str_eqb s (lit "sqlite") then ret SQLITE
              else Raise ValueError
  | _ => Raise ValueError
  end.

(** [ManifestEntry.from_dict(relative_path, data)]; [data.get] on a value
    that is not a dict raises AttributeError. *)
Definition entry_from_dict (relative_path : pystr) (data : json) : pyret ManifestEntry.t :=
  match data with
  | JObj d =>
      h <- get_str d (lit "hash") [] ;;
      sz <- get_int d (lit "size") 0 ;;
      mt <- get_float d (lit "mtime") 0%float ;;
      pm <- get_int d (lit "permissions") 420 ;;
      bu <- get_float d (lit "backed_up_at") 0%float ;;
      ret (ManifestEntry.mk relative_path h sz mt pm bu)
  | _ => Raise AttributeError
  end.

Section FromDict.
  (** [datetime.fromisoformat] of the standard library: [None] where it
      raises ValueError.  [now] is the [datetime.now()] used for defaults. *)
Variable fromisoformat : pystr -> option datetime.
Variable now : datetime.

  (** [datetime.fromisoformat(data.get(key, datetime.now().isoformat()))];
      a value that is not a [str] raises TypeError. *)
Definition get_datetime (data : Dict.t json) (key : pystr) : pyret datetime :=
    let v := match Dict.get key data with
             | Some v => v
             | None => JStr (isoformat now)
             end in
    match v with
    | JStr s => match fromisoformat s with
                | Some d => ret d
                | None => Raise ValueError
                end
    | _ => Raise TypeError
    end.

  (** The loop [for relative_path, entry_data in files_data.items()]. *)
Fixpoint load_entries (files_data : list (pystr * json)) (acc : Dict.t ManifestEntry.t)
      : pyret (Dict.t ManifestEntry.t) :=
    match files_data with
    | [] => ret acc
    | (relative_path, entry_data) :: rest =>
        e <- entry_from_dict relative_path entry_data ;;
        load_entries rest (Dict.set relative_path e acc)
    end.

  (** [Manifest.from_dict(data)] *)
Definition from_dict (data : json) : pyret Manifest.t :=
    match data with
    | JObj d =>
        version <- get_int d (lit "version") 1 ;;
        format <- ManifestFormat_of (match Dict.get (lit "format") d with
                                     | Some v => v | None => JStr (lit "json") end) ;;
        created <- get_datetime d (lit "created") ;;
        updated <- get_datetime d (lit "updated") ;;
        source <- get_str d (lit "source") [] ;;
        hostname <- get_str d (lit "hostname") [] ;;
        backup_count <- get_int d (lit "backup_count") 0 ;;
        entries <- (match Dict.get (lit "files") d with
                    | None => load_entries [] []
                    | Some (JObj files_data) => load_entries files_data []
                    | Some _ => Raise AttributeError   (* .items() on a non-dict *)
                    end) ;;
        ret (Manifest.mk version format created updated source hostname backup_count entries)
    | _ => Raise AttributeError   (* data.get on a non-dict *)
    end.
End FromDict.

(** ** [JsonManifestManager.load] and [JsonManifestManager.save] *)

(** What a file on disk holds, as [open(..., encoding="utf-8")] followed by
    [json.load] sees it.  [json.dump(data, f, ...)] writes a text that
    [json.load] reads back as [data], so a complete document is kept as the
    value it denotes. *)
Inductive content :=
| Document (j : json)   (* a complete JSON text, parsing to [j] *)
| Truncated             (* a JSON text cut short at a character boundary (possibly
                           empty), so still valid UTF-8 *)
| Garbage               (* UTF-8 text that is not JSON *)
| NotUtf8               (* bytes that are not valid UTF-8, among them a text cut
                           inside a multi-byte character (save writes names raw,
                           with ensure_ascii=False) *)
| Unreadable.           (* [open] fails: permissions, a directory, an I/O error *)

(** The backup directory: the manifest file [.smartbackup_manifest.json] and
    the temporary file [.smartbackup_manifest.json.tmp] next to it. *)
Record Disk := mkDisk {
  manifest_file : option content;
  temp_file : option content
}.

(** [with open(path, "r", encoding="utf-8") as f: data = json.load(f)] *)
Definition read_json (c : content) : pyret json :=
  match c with
  | Document j => ret j
  | Truncated | Garbage => Raise JSONDecodeError
  | NotUtf8 => Raise UnicodeDecodeError
  | Unreadable => Raise OSError
  end.

(** [except (json.JSONDecodeError, IOError, OSError)] *)
Definition load_catches (e : exn) : bool :=
  match e with
  | JSONDecodeError | OSError => true
  | _ => false
  end.

(** [JsonManifestManager.load()] *)
Definition load (fromisoformat : pystr -> option datetime) (now : datetime) (disk : Disk)
    : pyret (option Manifest.t) :=
  match manifest_file disk with
  | None => ret None                                  (* not self.exists() *)
  | Some c =>
      match (data <- read_json c ;;
             m <- from_dict fromisoformat now data ;;
             ret (Some m)) with
      | Raise e => if load_catches e then ret None else Raise e
      | r => r
      end
  end.

(** [json.dump(..., ensure_ascii=False)] writes every string as it is, and
    the [utf-8] text file refuses the lone surrogates U+D800..U+DFFF
    (which [os.fsdecode] produces for undecodable file names). *)
Definition utf8_encodable (s : pystr) : bool :=
  forallb (fun c => negb ((55296 <=? c) && (c <=? 57343))) s.

Fixpoint json_encodable (j : json) : bool :=
  match j with
  | JStr s => utf8_encodable s
  | JList l => (fix go (l : list json) : bool :=
                  match l with [] => true | x :: r => json_encodable x && go r end) l
  | JObj kvs => (fix go (kvs : list (pystr * json)) : bool :=
                   match kvs with
                   | [] => true
                   | (k, v) :: r => utf8_encodable k && json_encodable v && go r
                   end) kvs
  | _ => true
  end.

(** The operating-system error a save step may meet.  Each failing step
    carries [unlink_ok]: whether [temp_path.unlink(missing_ok=True)] in the
    handler returns; it raises when the temporary path is a directory or
    on an I/O error, and the handler's [except Exception: pass] ignores it. *)
Inductive save_fault :=
| NoFault
| MkdirFails (unlink_ok : bool)    (* manifest_path.parent.mkdir(...) raises OSError *)
| OpenFails (unlink_ok : bool)     (* open(temp_path, "w") raises OSError *)
| WriteFails (unlink_ok : bool)    (* a write of json.dump raises OSError (disk full, I/O error) *)
| ReplaceFails (unlink_ok : bool). (* temp_path.replace(manifest_path) raises OSError *)

Inductive save_outcome :=
| SaveReturned (ok : bool) (disk : Disk)
| SaveRaised (e : exn) (disk : Disk).

(** [try: temp_path.unlink(missing_ok=True) except Exception: pass] in the
    handler: the temporary file is gone when [unlink] returns, and left as
    it was when it raises. *)
Definition unlink_temp (unlink_ok : bool) (d : Disk) : Disk :=
  if unlink_ok then mkDisk (manifest_file d) None else d.

(** [JsonManifestManager.save(manifest)] *)
Definition save (fault : save_fault) (manifest : Manifest.t) (disk : Disk) : save_outcome :=
  match fault with
  | MkdirFails u | OpenFails u => SaveReturned false (unlink_temp u disk)
  | _ =>
      let data := to_dict manifest in
      (* open(temp_path, "w") truncates the temporary file *)
      let disk := mkDisk (manifest_file disk) (Some Truncated) in
      if negb (json_encodable data) then
        (* UnicodeEncodeError is a ValueError: the handler does not catch it;
           the [with] block closes the partly written file *)
        SaveRaised UnicodeEncodeError disk
      else
        match fault with
        | WriteFails u => SaveReturned false (unlink_temp u disk)
        | ReplaceFails u =>
            SaveReturned false (unlink_temp u (mkDisk (manifest_file disk) (Some (Document data))))
        | _ => SaveReturned true (mkDisk (Some (Document data)) None)
        end
  end.

(** ** [models.BackupResult] and the entry guard of [BackupEngine.run_backup] *)

Inductive FileAction := COPIED | UPDATED | SKIPPED | DELETED | ERROR.

(** The counters of [BackupResult] ([start_time], [end_time] and the
    [file_actions] log are left out). *)
Record BackupResult := mkBackupResult {
  br_total_files : Z;
  br_copied_files : Z;
  br_updated_files : Z;
  br_skipped_files : Z;
  br_deleted_files : Z;
  br_errors : Z;
  br_total_size : Z;
  br_copied_size : Z
}.

Definition BackupResult_new : BackupResult := mkBackupResult 0 0 0 0 0 0 0 0.

(** The file-system facts [_validate_paths] and the [finally] clause of
    [run_backup] consult. *)
Record PathsEnv := mkPathsEnv {
  source_exists : bool;       (* config.source_path.exists() *)
  backup_exists : bool;       (* config.backup_path.exists() *)
  write_probe_ok : bool;      (* write_text then unlink of backup_path/.write_test *)
  log_to_file : bool;         (* config.log_to_file *)
  log_write_ok : bool         (* _write_log_file() returns: the log directory's mkdir,
                                 the open and the writes succeed; it raises OSError
                                 otherwise, e.g. when backup_path is a regular file *)
}.

(** What a run does to the file systems, in order. *)
Inductive effect :=
| WriteProbe
| ScanSource
| CopyFile (relative_path : pystr)
| SaveManifest
| WriteLog.

(** [BackupEngine._validate_paths()], with the probe it writes. *)
Definition validate_paths (env : PathsEnv) : bool * list effect :=
  if negb (source_exists env) then (false, [])
  else if negb (backup_exists env) then (false, [])
  else (write_probe_ok env, [WriteProbe]).

(** [BackupEngine.run_backup()].  [rest] is steps 2 to 9 of the method
    (scan, diff, copies, manifest update), run from the fresh result when
    validation passes; the [finally] clause writes the log, and an
    exception it raises leaves [run_backup] in place of the [return]. *)
Definition run_backup (env : PathsEnv) (rest : BackupResult -> BackupResult * list effect)
    : pyret BackupResult * list effect :=
  let result := BackupResult_new in
  let '(ok, probe) := validate_paths env in
  let '(result, work) := if ok then rest result else (result, []) in
  (if log_to_file env && negb (log_write_ok env) then Raise OSError else ret result,
   probe ++ work ++ (if log_to_file env then [WriteLog] else [])).

(** ** [core.restore]: [RestoreResult], [RestoreEngine.restore] and
    [RestoreEngine._restore_single_file] *)

Inductive ConflictResolution := SKIP | OVERWRITE | RENAME | NEWER.

(** The counters of [RestoreResult]. *)
Record RestoreResult := mkRestoreResult {
  rr_total_files : Z;
  rr_restored_files : Z;
  rr_skipped_files : Z;
  rr_overwritten_files : Z;
  rr_errors : Z;
  rr_total_size : Z;
  rr_restored_size : Z
}.

Definition RestoreResult_new : RestoreResult := mkRestoreResult 0 0 0 0 0 0 0.

Definition set_errors (r : RestoreResult) (n : Z) : RestoreResult :=
  mkRestoreResult (rr_total_files r) (rr_restored_files r) (rr_skipped_files r)
    (rr_overwritten_files r) n (rr_total_size r) (rr_restored_size r).

(** What [restore] finds before it collects files. *)
Record RestoreEnv := mkRestoreEnv {
  backup_target_exists : bool;                (* self.backup_target.exists() *)
  target_path : option pystr;                 (* self.target_path *)
  manifest_loaded : pyret (option Manifest.t) (* self._manifest_manager.load() *)
}.

(** [RestoreEngine.restore(patterns, overwrite, dry_run)].  [rest] is steps
    3 and 4 (collect, then restore the files) run once a target is known,
    with the conflict policy [restore] chooses. *)
Definition restore (env : RestoreEnv) (overwrite : bool)
    (rest : pystr -> ConflictResolution -> RestoreResult -> RestoreResult * list effect)
    : RestoreResult * list effect :=
  let result := RestoreResult_new in
  let conflict_resolution := if overwrite then OVERWRITE else SKIP in
  if negb (backup_target_exists env) then (set_errors result 1, [])
  else
    match target_path env with
    | Some t => rest t conflict_resolution result
    | None =>
        match manifest_loaded env with
        | Ret (Some m) _ =>
            if str_truthy (Manifest.source m)
            then rest (Manifest.source m) conflict_resolution result
            else (set_errors result 1, [])
        | Ret None _ => (set_errors result 1, [])
        | Raise _ => (set_errors result (rr_errors result + 1), [])  (* except Exception *)
        end
    end.

(** A regular file: its bytes and [st_mtime]. *)
Record FileState := mkFileState { data : list Z; st_mtime : float }.

(** How [shutil.copy2(source_path, temp_path)] (with the [mkdir] before it)
    ends: it copies bytes and [st_mtime], or raises. *)
Inductive copy_outcome :=
| CopyOk
| CopyPermissionError
| CopyOSError (errno : string).

(** [_restore_single_file(source_path, conflict_resolution, dry_run)] for a
    backup file [src] and the file [target] at its restore location ([None]
    when [target.exists()] is false).  Returns [(success, action, message)]
    and the file left at the target. *)
Definition restore_single_file (conflict_resolution : ConflictResolution) (dry_run : bool)
    (copy : copy_outcome) (src : FileState) (target : option FileState)
    : (bool * FileAction * string) * option FileState :=
  let proceed :=
    if dry_run then
      match target with
      | Some _ => ((true, UPDATED, "DRY-RUN"%string), target)
      | None => ((true, COPIED, "DRY-RUN"%string), target)
      end
    else
      let action := match target with Some _ => UPDATED | None => COPIED end in
      match copy with
      | CopyOk => ((true, action, "OK"%string), Some src)   (* temp_path.replace(target) *)
      | CopyPermissionError => ((false, ERROR, "Permission denied"%string), target)
      | CopyOSError errno => ((false, ERROR, ("OS error: " ++ errno)%string), target)
      end in
  match target with
  | Some t =>
      match conflict_resolution with
      | SKIP => ((true, SKIPPED, "File exists"%string), target)
      | NEWER =>
          if PrimFloat.leb (st_mtime src) (st_mtime t)
          then ((true, SKIPPED, "Target is newer"%string), target)
          else proceed
      | _ => proceed
      end
  | None => proceed
  end.

(** The bookkeeping [_restore_files] does under its lock for one result.
    [size] is the outcome of [file_path.stat().st_size], [None] when [stat]
    raises: it is called after the counter went up, and the [except] then
    adds an error. *)
Definition record_restore (r : RestoreResult) (outcome : bool * FileAction * string)
    (size : option Z) : RestoreResult :=
  let add_size (r : RestoreResult) :=
    match size with
    | Some sz => mkRestoreResult (rr_total_files r) (rr_restored_files r) (rr_skipped_files r)
                   (rr_overwritten_files r) (rr_errors r) (rr_total_size r) (rr_restored_size r + sz)
    | None => set_errors r (rr_errors r + 1)   (* except Exception: errors += 1 *)
    end in
  let '(success, action, _) := outcome in
  if success then
    match action with
    | COPIED => add_size (mkRestoreResult (rr_total_files r) (rr_restored_files r + 1)
                  (rr_skipped_files r) (rr_overwritten_files r) (rr_errors r) (rr_total_size r)
                  (rr_restored_size r))
    | UPDATED => add_size (mkRestoreResult (rr_total_files r) (rr_restored_files r)
                  (rr_skipped_files r) (rr_overwritten_files r + 1) (rr_errors r) (rr_total_size r)
                  (rr_restored_size r))
    | SKIPPED => mkRestoreResult (rr_total_files r) (rr_restored_files r) (rr_skipped_files r + 1)
                  (rr_overwritten_files r) (rr_errors r) (rr_total_size r) (rr_restored_size r)
    | _ => r
    end
  else set_errors r (rr_errors r + 1).

(** ** [core.scanner.ExclusionFilter] and [RestoreEngine._collect_files] *)

(** A path as its components; [path.name] is the last one. *)
Definition Path := list pystr.

Definition path_name (p : Path) : pystr := last p [].

Definition char_dot : Z := 46.
Definition char_star : Z := 42.
Definition char_question : Z := 63.
Definition char_backslash : Z := 92.

(** [pathlib.PurePath.suffix]: from the last dot of the name, when that dot
    is neither the first nor the last character. *)
Definition path_suffix (p : Path) : pystr :=
  let name := path_name p in
  let n := length name in
  (* name.rfind('.') *)
  let fix rfind (i : nat) : option nat :=
    match i with
    | O => None
    | S i' => if Z.eqb (nth i' name 0) char_dot then Some i' else rfind i'
    end in
  match rfind n with
  | Some i => if (0 <? i)%nat && (i <? n - 1)%nat then skipn i name else []
  | None => []
  end.

(** [s.replace(old, new)] for a one-character [old]. *)
Definition replace_char (c : Z) (new : pystr) (s : pystr) : pystr :=
  flat_map (fun d => if Z.eqb d c then new else [d]) s.

(** The regex source [f"^{regex}$"] built from a glob exclusion. *)
Definition glob_regex (excl : pystr) : pystr :=
  let regex := replace_char char_dot [char_backslash; char_dot] excl in
  let regex := replace_char char_star [char_dot; char_star] regex in
  let regex := replace_char char_question [char_dot] regex in
  lit "^" ++ regex ++ lit "$".

Definition is_glob (excl : pystr) : bool :=
  existsb (Z.eqb char_star) excl || existsb (Z.eqb char_question) excl.

Record ExclusionFilter := mkExclusionFilter {
  exact_matches : list pystr;
  patterns : list pystr;            (* regex sources, compiled with re.IGNORECASE *)
  excluded_extensions : list pystr
}.

Definition mem (x : pystr) (l : list pystr) : bool := existsb (str_eqb x) l.

(** [str.lower()] restricted to ASCII text, for concrete examples. *)
Definition ascii_lower (s : pystr) : pystr :=
  map (fun c => if (65 <=? c) && (c <=? 90) then c + 32 else c) s.

Section Exclusion.
  (** [str.lower()] of the standard library. *)
Variable lower : pystr -> pystr.
  (** [re.compile(source, re.IGNORECASE).match(name)] is not [None]. *)
Variable regex_match : pystr -> pystr -> bool.
  (** [ExclusionFilter._is_virtual_env(path)]: it looks at the file system. *)
Variable is_virtual_env : Path -> bool.
  (** [fnmatch.fnmatch(name, pattern)] *)
Variable fnmatch : pystr -> pystr -> bool.

  (** [ExclusionFilter.__init__(exclusions, excluded_extensions)] *)
Definition ExclusionFilter_init (exclusions excluded_extensions : list pystr) : ExclusionFilter :=
    mkExclusionFilter
      (map lower (filter (fun e => negb (is_glob e)) exclusions))
      (map glob_regex (filter is_glob exclusions))
      (map lower excluded_extensions).

  (** [ExclusionFilter.should_exclude(path)] *)
Definition should_exclude (self : ExclusionFilter) (path : Path) : bool * pystr :=
    let name := lower (path_name path) in
    if mem name (exact_matches self) then (true, lit "Exact match: " ++ name)
    else if mem (lower (path_suffix path)) (excluded_extensions self)
    then (true, lit "Excluded extension: " ++ path_suffix path)
    else match find (fun pattern => regex_match pattern name) (patterns self) with
         | Some pattern => (true, lit "Pattern match: " ++ pattern)
         | None => if is_virtual_env path then (true, lit "Virtual environment detected")
                   else (false, [])
         end.

  (** [RestoreEngine._collect_files(patterns)] over the entries of
      [self.backup_target.rglob("*")], each given as [str(relative)] and
      whether [path.is_file()]; returns the relative paths kept.  An absent
      [patterns] ([None]) is the empty list. *)
Definition collect_files (listing : list (pystr * bool)) (patterns : list pystr) : list pystr :=
    let keep (entry : pystr * bool) : bool :=
      let '(relative, is_file) := entry in
      if negb is_file then false
      else if startswith relative (lit "_backup_logs") || startswith relative (lit ".smartbackup")
      then false
      else match patterns with
           | [] => true
           | _ => existsb (fun pattern => fnmatch relative pattern) patterns
           end in
    map fst (filter keep listing).
End Exclusion.

(** ** [ManifestManager.create], [JsonManifestManager.load_or_create] and
    [ManifestManager.verify] *)

(** [ManifestManager.create(source_path)]: [Manifest(source=str(source_path),
    backup_count=0)]; [now] is the value of the [datetime.now] default
    factories of [created] and [updated]. *)
Definition create (now : datetime) (source_path : pystr) : Manifest.t :=
  Manifest.mk 1 JSON now now source_path [] 0 [].

(** [JsonManifestManager.load_or_create(source_path)] *)
Definition load_or_create (fromisoformat : pystr -> option datetime) (now : datetime)
    (disk : Disk) (source_path : pystr) : pyret Manifest.t :=
  manifest <- load fromisoformat now disk ;;
  ret (match manifest with Some m => m | None => create now source_path end).

(** [str(n)] for an [int]: its decimal digits, with a leading [-] when
    negative. *)
Fixpoint digits_rev (fuel : nat) (n : Z) : pystr :=
  match fuel with
  | O => []
  | S fuel' => if n <? 10 then [48 + n] else (48 + n mod 10) :: digits_rev fuel' (n / 10)
  end.

Definition z_str (z : Z) : pystr :=
  let n := Z.abs z in
  let ds := rev (digits_rev (S (Z.to_nat (Z.log2 n))) n) in
  if z <? 0 then 45 :: ds else ds.

(** What [verify] learns about [backup_target / entry.relative_path]:
    [exists()] is false, [stat()] raises OSError (with the text of the
    error), or [stat()] gives [st_size]. *)
Inductive stat_result :=
| Missing
| StatError (msg : pystr)
| Stat (st_size : Z).

(** [ManifestManager.verify(manifest, backup_target)] *)
Definition verify (manifest : Manifest.t) (fs : pystr -> stat_result) : list pystr :=
  flat_map (fun entry =>
              let rp := ManifestEntry.relative_path entry in
              match fs rp with
              | Missing => [lit "Missing: " ++ rp]
              | StatError msg => [lit "Error reading " ++ rp ++ lit ": " ++ msg]
              | Stat st_size =>
                  if negb (Z.eqb st_size (ManifestEntry.size entry))
                  then [lit "Size mismatch: " ++ rp ++ lit " (expected " ++
                        z_str (ManifestEntry.size entry) ++ lit ", got " ++ z_str st_size ++ lit ")"]
                  else []
              end)
           (Dict.values (Manifest.entries manifest)).

(** ** [core.detector.ChangeDetector.detect_changes] *)

(** [a / b] on POSIX paths given as text. *)
Definition path_join (a b : pystr) : pystr := a ++ [47] ++ b.

(** What [detect_changes] learns about [backup_path / relative_path]:
    [exists()] is false, [stat()] raises, or [stat()] gives size and mtime. *)
Inductive backup_stat :=
| BMissing
| BStatFails
| BStat (size : Z) (mtime : float).

(** One iteration of [for relative_path, source_info in source_files.items()];
    the state is [(new_files, modified_files, existing_backup_files)]. *)
Definition detect_step (use_hash : bool) (backup_path : pystr) (stat : pystr -> backup_stat)
    (st : list FileInfo.t * list FileInfo.t * list pystr) (kv : pystr * FileInfo.t)
    : list FileInfo.t * list FileInfo.t * list pystr :=
  let '(new_files, modified_files, existing) := st in
  let '(relative_path, source_info) := kv in
  let '(new_files, modified_files) :=
    match stat relative_path with
    | BMissing => (new_files ++ [source_info], modified_files)
    | BStatFails => (new_files, modified_files ++ [source_info])   (* except Exception *)
    | BStat size mtime =>
        let backup_info :=
          FileInfo.mk (path_join backup_path relative_path) relative_path size mtime None in
        if FileInfo.needs_update source_info backup_info use_hash
        then (new_files, modified_files ++ [source_info])
        else (new_files, modified_files)
    end in
  (* if relative_path in existing_backup_files: existing_backup_files.remove(...) *)
  (new_files, modified_files, filter (fun p => negb (str_eqb p relative_path)) existing).

(** [ChangeDetector(use_hash).detect_changes(source_files, backup_path, logger)].
    [backup_exists] is [backup_path.exists()] and [listing] the relative
    paths of the files [backup_path.rglob("*")] yields.  The set
    [existing_backup_files] is kept as a list without repetitions; a Python
    set has no fixed iteration order, so only the members of the returned
    [files_to_delete] are meaningful, not their order. *)
Definition detect_changes (use_hash : bool) (source_files : Dict.t FileInfo.t)
    (backup_path : pystr) (backup_exists : bool) (listing : list pystr)
    (stat : pystr -> backup_stat) : list FileInfo.t * list FileInfo.t * list pystr :=
  let existing := if backup_exists then nodup pystr_eq_dec listing else [] in
  let '(new_files, modified_files, existing) :=
    fold_left (detect_step use_hash backup_path stat) source_files ([], [], existing) in
  (new_files, modified_files, map (path_join backup_path) existing).

(** ** Steps 2 to 9 of [BackupEngine.run_backup] *)




Section BackupSteps.
  (** [datetime.fromisoformat] and [datetime.now()], as for [load]. *)
Variable fromisoformat : pystr -> option datetime.
Variable now : datetime.
  (** [stat().st_mode] and [datetime.now().timestamp()] as
      [update_from_backup] meets them. *)
Variable st_mode : FileInfo.t -> option Z.
Variable backup_time : float.
  (** [self._copy_single_file(file_info, backup_target, action)]: the
      [(success, message)] pair it returns.  [DryRunBackupEngine] returns
      [(True, "DRY-RUN")] for every file. *)
Variable copy : FileInfo.t -> FileAction -> bool * pystr.
  (** [ChangeDetector(use_hash).detect_changes(source_files, backup_target,
      logger)], used when the manifest is off. *)
Variable detect : Dict.t FileInfo.t -> list FileInfo.t * list FileInfo.t * list pystr.


End BackupSteps.


(** ** [RestoreEngine._restore_files] *)

(** The bookkeeping of [_restore_files] over the files handed to it, each
    given as the copy outcome, the backup file, the file at its target and
    the outcome of its [stat().st_size]; the futures are taken in
    submission order. *)
Definition restore_files (conflict_resolution : ConflictResolution) (dry_run : bool)
    (files : list (copy_outcome * FileState * option FileState * option Z)) (r : RestoreResult)
    : RestoreResult :=
  fold_left (fun r f =>
               let '(copy, src, target, size) := f in
               record_restore r (fst (restore_single_file conflict_resolution dry_run copy src target))
                 size)
            files r.

(** The files [_restore_files] counts twice: restored (copied or updated)
    and then, their [stat()] raising, counted again as an error. *)
Definition stat_failure (conflict_resolution : ConflictResolution) (dry_run : bool)
    (f : copy_outcome * FileState * option FileState * option Z) : Z :=
  let '(copy, src, target, size) := f in
  match size, fst (restore_single_file conflict_resolution dry_run copy src target) with
  | None, (true, COPIED, _) | None, (true, UPDATED, _) => 1
  | _, _ => 0
  end.

Definition stat_failures (conflict_resolution : ConflictResolution) (dry_run : bool)
    (files : list (copy_outcome * FileState * option FileState * option Z)) : Z :=
  fold_right (fun f n => stat_failure conflict_resolution dry_run f + n) 0 files.

(** ** [core.scanner.FileScanner.scan] *)

(** [str(path)] of a POSIX path given by its components; an absolute path
    starts with the empty component. *)
Fixpoint path_str (p : Path) : pystr :=
  match p with
  | [] => []
  | [x] => x
  | x :: rest => x ++ [47] ++ path_str rest
  end.

(** An entry [os.scandir] yields. *)
Inductive fs_node :=
| FsFile (name : pystr) (st : option (Z * float))
    (* a regular file; [entry.stat()] gives (st_size, st_mtime), or raises *)
| FsDir (name : pystr) (children : option (list fs_node))
    (* a directory; [os.scandir] on it raises when [children] is [None] *)
| FsOther (name : pystr).
    (* neither a directory nor a regular file without following symlinks *)

Definition fs_node_name (n : fs_node) : pystr :=
  match n with FsFile name _ | FsDir name _ | FsOther name => name end.

Section Scanner.
Variable lower : pystr -> pystr.
Variable regex_match : pystr -> pystr -> bool.
Variable is_virtual_env : Path -> bool.
  (** [self._calculate_hash(path)]: the MD5 hex digest, or [""] when reading
      fails. *)
Variable calculate_hash : pystr -> pystr.
  (** [self.filter], [self.use_hash], [self.min_size_for_hash] *)
Variable filter_ : ExclusionFilter.
Variable use_hash : bool.
Variable min_size_for_hash : Z.
  (** The [base_path] of [scan]. *)
Variable base_path : Path.

  (** The body of the loop of [_scan_recursive] for one entry, at relative
      directory [rel] of [base_path]: exclusion check, then recursion into a
      directory or the record of a regular file.  Exceptions raised for the
      entry are caught and skip it. *)
Fixpoint scan_node (rel : list pystr) (n : fs_node) (files : Dict.t FileInfo.t)
      : Dict.t FileInfo.t :=
    let path := base_path ++ rel ++ [fs_node_name n] in
    if fst (should_exclude lower regex_match is_virtual_env filter_ path) then files
    else
      match n with
      | FsDir name children =>
          match children with
          | None => files
          | Some entries =>
              (fix go (l : list fs_node) (files : Dict.t FileInfo.t) :=
                 match l with
                 | [] => files
                 | e :: l' => go l' (scan_node (rel ++ [name]) e files)
                 end) entries files
          end
      | FsFile name st =>
          match st with
          | None => files
          | Some (st_size, st_mtime) =>
              let relative_path := path_str (rel ++ [name]) in
              let file_hash := if use_hash && (min_size_for_hash <=? st_size)
                               then Some (calculate_hash (path_str path)) else None in
              Dict.set relative_path
                (FileInfo.mk (path_str path) relative_path st_size st_mtime file_hash) files
          end
      | FsOther _ => files
      end.

  (** [_scan_recursive] over the entries of one directory. *)
Fixpoint scan_entries (rel : list pystr) (l : list fs_node) (files : Dict.t FileInfo.t)
      : Dict.t FileInfo.t :=
    match l with
    | [] => files
    | e :: l' => scan_entries rel l' (scan_node rel e files)
    end.

  (** [FileScanner.scan(base_path)]; [root] is [None] when [os.scandir]
      on [base_path] raises. *)
Definition scan (root : option (list fs_node)) : Dict.t FileInfo.t :=
    match root with
    | None => []
    | Some entries => scan_entries [] entries []
    end.
End Scanner.

(** * Properties *)

Lemma str_eqb_eq a b : str_eqb a b = true <-> a = b.
Proof. unfold str_eqb; destruct (list_eq_dec Z.eq_dec a b); split; congruence. Qed.

Lemma str_eqb_refl a : str_eqb a a = true.
Proof. apply str_eqb_eq; reflexivity. Qed.

Lemma str_eqb_neq a b : str_eqb a b = false <-> a <> b.
Proof.
  unfold str_eqb; destruct (list_eq_dec Z.eq_dec a b); split; congruence.
Qed.

(** ** The diff loop *)

Section DiffLoop.
Variable m : Manifest.t.

Lemma diff_fold l r seen :
    fold_left (diff_step m) l (r, seen) =
    (ManifestDiff.mk
       (ManifestDiff.new_files r ++ filter (fun f => bucket_eqb (classify m f) BNew) l)
       (ManifestDiff.modified_files r ++ filter (fun f => bucket_eqb (classify m f) BModified) l)
       (ManifestDiff.deleted_paths r)
       (ManifestDiff.unchanged_files r ++ filter (fun f => bucket_eqb (classify m f) BUnchanged) l),
     rev (map FileInfo.relative_path l) ++ seen).
  Proof.
    revert r seen; induction l as [|f l IH]; intros r seen.
    - destruct r; simpl; rewrite !app_nil_r; reflexivity.
    - simpl.
      destruct (Manifest.get_entry m (FileInfo.relative_path f)) as [e|] eqn:He;
        [destruct (ManifestEntry.has_changed e f) eqn:Hc|].
      + replace (classify m f) with BModified by (unfold classify; rewrite He, Hc; reflexivity).
        rewrite IH; simpl; rewrite <- !app_assoc; reflexivity.
      + replace (classify m f) with BUnchanged by (unfold classify; rewrite He, Hc; reflexivity).
        rewrite IH; simpl; rewrite <- !app_assoc; reflexivity.
      + replace (classify m f) with BNew by (unfold classify; rewrite He; reflexivity).
        rewrite IH; simpl; rewrite <- !app_assoc; reflexivity.
  Qed.

Lemma diff_some source_files :
    diff source_files (Some m) =
    ManifestDiff.mk
      (filter (fun f => bucket_eqb (classify m f) BNew) (Dict.values source_files))
      (filter (fun f => bucket_eqb (classify m f) BModified) (Dict.values source_files))
      (filter (fun p => negb (existsb (str_eqb p)
                                (rev (map FileInfo.relative_path (Dict.values source_files)))))
              (Dict.keys (Manifest.entries m)))
      (filter (fun f => bucket_eqb (classify m f) BUnchanged) (Dict.values source_files)).
  Proof.
    unfold diff. rewrite diff_fold. simpl. rewrite app_nil_r. reflexivity.
  Qed.

Lemma filter_buckets_perm (l : list FileInfo.t) :
    Permutation (filter (fun f => bucket_eqb (classify m f) BNew) l ++
                 filter (fun f => bucket_eqb (classify m f) BModified) l ++
                 filter (fun f => bucket_eqb (classify m f) BUnchanged) l) l.
  Proof.
    induction l as [|f l IH]; simpl; [constructor|].
    destruct (classify m f); simpl.
    - constructor; exact IH.
    - rewrite <- Permutation_middle. constructor; exact IH.
    - rewrite app_assoc, <- Permutation_middle, <- app_assoc. constructor; exact IH.
  Qed.
End DiffLoop.

Lemma has_changed_spec e fi :
  ManifestEntry.has_changed e fi = true <->
  FileInfo.size fi <> ManifestEntry.size e \/
  PrimFloat.ltb (ManifestEntry.mtime e) (FileInfo.mtime fi) = true \/
  (exists h, FileInfo.file_hash fi = Some h /\ h <> [] /\
             ManifestEntry.file_hash e <> [] /\ h <> ManifestEntry.file_hash e).
Proof.
  destruct e as [rp eh es em ep eb], fi as [fp frp fs fm fh]; unfold ManifestEntry.has_changed; simpl.
  destruct (Z.eqb_spec fs es) as [Hs|Hs]; simpl; [|split; [auto|intros _; reflexivity]].
  destruct (PrimFloat.ltb em fm) eqn:Ht; [split; auto|].
  split.
  - intro H. right; right.
    destruct fh as [h|]; simpl in H; [|discriminate].
    destruct h as [|c h]; simpl in H; [discriminate|].
    destruct eh as [|c' eh']; simpl in H; [discriminate|].
    exists (c :: h); repeat split; try discriminate.
    apply str_eqb_neq. destruct (str_eqb (c :: h) (c' :: eh')); [discriminate|reflexivity].
  - intros [H|[H|(h & Hh & Hne & Hen & Hd)]]; [congruence|discriminate|].
    subst fh. simpl.
    destruct h as [|c h]; [congruence|]. destruct eh as [|c' eh']; [congruence|]. simpl.
    apply str_eqb_neq in Hd. rewrite Hd. reflexivity.
Qed.

Lemma in_filter_bucket m b f l :
  In f (filter (fun g => bucket_eqb (classify m g) b) l) <-> In f l /\ classify m f = b.
Proof.
  rewrite filter_In. destruct (classify m f), b; simpl; intuition congruence.
Qed.

(** C1.  For a scanned file whose relative path has a manifest entry, the
    diff puts it among the modified files exactly when its size differs
    from the stored size, or its mtime is strictly greater than the stored
    mtime, or both sides carry a non-empty hash and the hashes differ.  So an
    older mtime with equal size and no hash leaves it unchanged, and a size
    difference makes it modified whatever the mtimes. *)
Theorem diff_modified_iff (source_files : Dict.t FileInfo.t) (m : Manifest.t)
    (file_info : FileInfo.t) (entry : ManifestEntry.t) :
  In file_info (Dict.values source_files) ->
  Manifest.get_entry m (FileInfo.relative_path file_info) = Some entry ->
  (In file_info (ManifestDiff.modified_files (diff source_files (Some m))) <->
   FileInfo.size file_info <> ManifestEntry.size entry \/
   PrimFloat.ltb (ManifestEntry.mtime entry) (FileInfo.mtime file_info) = true \/
   (exists h, FileInfo.file_hash file_info = Some h /\ h <> [] /\
              ManifestEntry.file_hash entry <> [] /\ h <> ManifestEntry.file_hash entry)).
Proof.
  intros Hin He. rewrite diff_some. simpl. rewrite in_filter_bucket, <- has_changed_spec.
  unfold classify. rewrite He.
  destruct (ManifestEntry.has_changed entry file_info); intuition discriminate.
Qed.

(** Example inputs for the diff: two keys of one dict whose files carry the
    same relative path [a], and a manifest tracking [a] with size 1. *)
Definition ex_file (path : string) (size : Z) : FileInfo.t :=
  FileInfo.mk (lit path) (lit "a") size 0%float None.

Definition ex_entry : ManifestEntry.t :=
  ManifestEntry.mk (lit "a") [] 1 0%float 420 0%float.

Definition ex_manifest : Manifest.t :=
  Manifest.mk 1 JSON (mkDatetime (lit "2024-01-01T00:00:00"))
    (mkDatetime (lit "2024-01-01T00:00:00")) (lit "/home/u/Documents") [] 1
    [(lit "a", ex_entry)].

Definition ex_source_files : Dict.t FileInfo.t :=
  [(lit "x", ex_file "/s/x" 1); (lit "y", ex_file "/s/y" 2)].

(** C2, as stated, fails: with a mapping whose two files share the relative
    path [a], [a] is listed both as modified and as unchanged. *)
Lemma diff_partition_counterexample :
  NoDup (Dict.keys ex_source_files) /\
  ~ (forall file_info, In file_info (Dict.values ex_source_files) ->
       count_occ pystr_eq_dec
         (map FileInfo.relative_path
            (ManifestDiff.new_files (diff ex_source_files (Some ex_manifest)) ++
             ManifestDiff.modified_files (diff ex_source_files (Some ex_manifest)) ++
             ManifestDiff.unchanged_files (diff ex_source_files (Some ex_manifest))))
         (FileInfo.relative_path file_info) = 1%nat).
Proof.
  split.
  - repeat constructor; vm_compute; intuition discriminate.
  - intro H. specialize (H (ex_file "/s/x" 1) (or_introl eq_refl)).
    vm_compute in H. discriminate.
Qed.

(** C2 (amended).  When the scanned files carry pairwise distinct relative
    paths, as [FileScanner.scan] builds the mapping (each file under its own
    relative path), each file's relative path occurs exactly once in
    new, modified and unchanged together; and a manifest path is listed as
    deleted exactly when no scanned file has it. *)
Theorem diff_partition (source_files : Dict.t FileInfo.t) (m : Manifest.t) :
  NoDup (map FileInfo.relative_path (Dict.values source_files)) ->
  (forall file_info, In file_info (Dict.values source_files) ->
     count_occ pystr_eq_dec
       (map FileInfo.relative_path
          (ManifestDiff.new_files (diff source_files (Some m)) ++
           ManifestDiff.modified_files (diff source_files (Some m)) ++
           ManifestDiff.unchanged_files (diff source_files (Some m))))
       (FileInfo.relative_path file_info) = 1%nat) /\
  (forall p, In p (Dict.keys (Manifest.entries m)) ->
     (In p (ManifestDiff.deleted_paths (diff source_files (Some m))) <->
      ~ In p (map FileInfo.relative_path (Dict.values source_files)))).
Proof.
  intros Hnd. rewrite diff_some. simpl. split.
  - intros fi Hin.
    assert (Hp := Permutation_map FileInfo.relative_path (filter_buckets_perm m (Dict.values source_files))).
    rewrite !map_app in Hp |- *.
    apply (Permutation_count_occ pystr_eq_dec) with (x := FileInfo.relative_path fi) in Hp.
    rewrite Hp. apply (NoDup_count_occ' pystr_eq_dec); [exact Hnd|].
    apply in_map; exact Hin.
  - intros p Hp. rewrite filter_In.
    split.
    + intros [_ Hn] Hin. apply negb_true_iff in Hn.
      assert (existsb (str_eqb p) (rev (map FileInfo.relative_path (Dict.values source_files))) = true)
        as Hc.
      { apply existsb_exists. exists p. split; [apply in_rev; rewrite rev_involutive; exact Hin|].
        apply str_eqb_refl. }
      congruence.
    + intros Hnin. split; [exact Hp|]. apply negb_true_iff.
      destruct (existsb (str_eqb p) (rev (map FileInfo.relative_path (Dict.values source_files))))
        eqn:Hc; [|reflexivity].
      apply existsb_exists in Hc as (q & Hq & Heq). apply str_eqb_eq in Heq. subst q.
      apply in_rev in Hq. contradiction.
Qed.

Definition ex_files3 : Dict.t FileInfo.t :=
  [(lit "a", FileInfo.mk (lit "/s/a") (lit "a") 2 0%float None);
   (lit "b", FileInfo.mk (lit "/s/b") (lit "b") 1 0%float None);
   (lit "c", FileInfo.mk (lit "/s/c") (lit "c") 3 0%float None)].

Definition ex_manifest3 : Manifest.t :=
  Manifest.with_entries ex_manifest
    [(lit "a", ex_entry);
     (lit "c", ManifestEntry.mk (lit "c") [] 3 0%float 420 0%float);
     (lit "d", ManifestEntry.mk (lit "d") [] 4 0%float 420 0%float)].

Definition ex_rel_count (p : string) : nat :=
  count_occ pystr_eq_dec
    (map FileInfo.relative_path
       (ManifestDiff.new_files (diff ex_files3 (Some ex_manifest3)) ++
        ManifestDiff.modified_files (diff ex_files3 (Some ex_manifest3)) ++
        ManifestDiff.unchanged_files (diff ex_files3 (Some ex_manifest3))))
    (lit p).

Lemma diff_partition_witness :
  NoDup (map FileInfo.relative_path (Dict.values ex_files3)) /\
  ex_rel_count "a" = 1%nat /\ ex_rel_count "b" = 1%nat /\ ex_rel_count "c" = 1%nat /\
  (In (lit "d") (ManifestDiff.deleted_paths (diff ex_files3 (Some ex_manifest3))) <->
   ~ In (lit "d") (map FileInfo.relative_path (Dict.values ex_files3))) /\
  (In (lit "a") (ManifestDiff.deleted_paths (diff ex_files3 (Some ex_manifest3))) <->
   ~ In (lit "a") (map FileInfo.relative_path (Dict.values ex_files3))) /\
  ManifestDiff.deleted_paths (diff ex_files3 (Some ex_manifest3)) = [lit "d"] /\
  map FileInfo.relative_path (ManifestDiff.new_files (diff ex_files3 (Some ex_manifest3)))
    = [lit "b"] /\
  map FileInfo.relative_path (ManifestDiff.modified_files (diff ex_files3 (Some ex_manifest3)))
    = [lit "a"] /\
  map FileInfo.relative_path (ManifestDiff.unchanged_files (diff ex_files3 (Some ex_manifest3)))
    = [lit "c"].
Proof.
  assert (Hnd : NoDup (map FileInfo.relative_path (Dict.values ex_files3)))
    by (vm_compute; repeat constructor; simpl; intuition discriminate).
  destruct (diff_partition ex_files3 ex_manifest3 Hnd) as [Hc Hd].
  split; [exact Hnd|].
  split; [exact (Hc _ (or_introl eq_refl))|].
  split; [exact (Hc _ (or_intror (or_introl eq_refl)))|].
  split; [exact (Hc _ (or_intror (or_intror (or_introl eq_refl))))|].
  split; [exact (Hd (lit "d") (or_intror (or_intror (or_introl eq_refl))))|].
  split; [exact (Hd (lit "a") (or_introl eq_refl))|].
  split; [vm_compute; reflexivity|].
  split; [vm_compute; reflexivity|].
  split; vm_compute; reflexivity.
Defined.

Lemma diff_modified_iff_witness :
  In (ex_file "/s/a" 2) (Dict.values [(lit "a", ex_file "/s/a" 2)]) /\
  Manifest.get_entry ex_manifest (lit "a") = Some ex_entry /\
  (In (ex_file "/s/a" 2)
      (ManifestDiff.modified_files (diff [(lit "a", ex_file "/s/a" 2)] (Some ex_manifest))) <->
   FileInfo.size (ex_file "/s/a" 2) <> ManifestEntry.size ex_entry \/
   PrimFloat.ltb (ManifestEntry.mtime ex_entry) (FileInfo.mtime (ex_file "/s/a" 2)) = true \/
   (exists h, FileInfo.file_hash (ex_file "/s/a" 2) = Some h /\ h <> [] /\
              ManifestEntry.file_hash ex_entry <> [] /\ h <> ManifestEntry.file_hash ex_entry)).
Proof.
  split; [left; reflexivity|]. split; [vm_compute; reflexivity|].
  exact (diff_modified_iff [(lit "a", ex_file "/s/a" 2)] ex_manifest (ex_file "/s/a" 2) ex_entry
           (or_introl eq_refl) (eq_refl : Manifest.get_entry ex_manifest (lit "a") = Some ex_entry)).
Defined.

(** ** Dict operations *)

Lemma dict_get_map_other {V} k k' (v : V) d :
  str_eqb k' k = false ->
  Dict.get k (map (fun kv => if str_eqb (fst kv) k' then (k', v) else kv) d) = Dict.get k d.
Proof.
  intro Hk. unfold Dict.get.
  induction d as [|[k0 v0] d IH]; simpl; [reflexivity|].
  destruct (str_eqb k0 k') eqn:H0; simpl.
  - rewrite Hk. apply str_eqb_eq in H0; subst k0. rewrite Hk. exact IH.
  - destruct (str_eqb k0 k); [reflexivity|exact IH].
Qed.

Lemma dict_get_map_same {V} k' (v : V) d :
  existsb (fun kv => str_eqb (fst kv) k') d = true ->
  Dict.get k' (map (fun kv => if str_eqb (fst kv) k' then (k', v) else kv) d) = Some v.
Proof.
  unfold Dict.get.
  induction d as [|[k0 v0] d IH]; simpl; [discriminate|]. intro Hex.
  destruct (str_eqb k0 k') eqn:H0; simpl.
  - rewrite str_eqb_refl. reflexivity.
  - rewrite H0. apply IH. exact Hex.
Qed.

Lemma dict_get_app_other {V} k k' (v : V) d :
  str_eqb k' k = false -> Dict.get k (d ++ [(k', v)]) = Dict.get k d.
Proof.
  intro Hk. unfold Dict.get.
  induction d as [|[k0 v0] d IH]; simpl; [rewrite Hk; reflexivity|].
  destruct (str_eqb k0 k); [reflexivity|exact IH].
Qed.

Lemma dict_get_app_same {V} k' (v : V) d :
  existsb (fun kv => str_eqb (fst kv) k') d = false -> Dict.get k' (d ++ [(k', v)]) = Some v.
Proof.
  unfold Dict.get.
  induction d as [|[k0 v0] d IH]; simpl; [rewrite str_eqb_refl; reflexivity|].
  intro Hex. apply orb_false_iff in Hex as [H0 Hex]. rewrite H0. apply IH. exact Hex.
Qed.

Lemma dict_get_set {V} k k' (v : V) d :
  Dict.get k (Dict.set k' v d) = if str_eqb k' k then Some v else Dict.get k d.
Proof.
  unfold Dict.set.
  destruct (str_eqb k' k) eqn:Hk.
  - apply str_eqb_eq in Hk; subst k.
    destruct (existsb (fun kv => str_eqb (fst kv) k') d) eqn:Hex.
    + apply dict_get_map_same; exact Hex.
    + apply dict_get_app_same; exact Hex.
  - destruct (existsb (fun kv => str_eqb (fst kv) k') d).
    + apply dict_get_map_other; exact Hk.
    + apply dict_get_app_other; exact Hk.
Qed.

Lemma dict_get_pop {V} k k' (d : Dict.t V) :
  Dict.get k (Dict.pop k' d) = if str_eqb k' k then None else Dict.get k d.
Proof.
  unfold Dict.pop, Dict.get.
  induction d as [|[k0 v0] d IH]; simpl.
  - destruct (str_eqb k' k); reflexivity.
  - destruct (str_eqb k0 k') eqn:H0; simpl.
    + apply str_eqb_eq in H0; subst k0. rewrite IH.
      destruct (str_eqb k' k); reflexivity.
    + destruct (str_eqb k0 k) eqn:H1.
      * apply str_eqb_eq in H1; subst k0.
        destruct (str_eqb k' k) eqn:H2; [apply str_eqb_eq in H2; subst; rewrite str_eqb_refl in H0; discriminate|].
        reflexivity.
      * exact IH.
Qed.

(** ** [update_from_backup] *)

Section UpdateFromBackup.
Variable st_mode : FileInfo.t -> option Z.
Variable backup_time : float.
Variable now : datetime.

Definition backed_entry (f : FileInfo.t) : ManifestEntry.t :=
    ManifestEntry.from_file_info f (st_mode f) backup_time.

Lemma get_entry_adds files m p :
    Manifest.get_entry
      (fold_left (fun m file_info => Manifest.add_entry m
         (ManifestEntry.from_file_info file_info (st_mode file_info) backup_time) now) files m) p =
    match last_with p files with
    | Some f => Some (backed_entry f)
    | None => Manifest.get_entry m p
    end.
  Proof.
    revert m; induction files as [|f fs IH]; intro m; simpl; [reflexivity|].
    rewrite IH. destruct (last_with p fs); [reflexivity|].
    unfold Manifest.get_entry, Manifest.add_entry; simpl. rewrite dict_get_set. simpl.
    destruct (str_eqb (FileInfo.relative_path f) p); reflexivity.
  Qed.

Lemma count_adds files m :
    Manifest.backup_count
      (fold_left (fun m file_info => Manifest.add_entry m
         (ManifestEntry.from_file_info file_info (st_mode file_info) backup_time) now) files m) =
    Manifest.backup_count m.
  Proof.
    revert m; induction files as [|f fs IH]; intro m; simpl; [reflexivity|].
    rewrite IH. reflexivity.
  Qed.

Lemma get_entry_removes deleted m p :
    Manifest.get_entry (fold_left (fun m path => Manifest.remove_entry m path now) deleted m) p =
    if existsb (str_eqb p) deleted then None else Manifest.get_entry m p.
  Proof.
    revert m; induction deleted as [|q qs IH]; intro m; simpl; [reflexivity|].
    rewrite IH. destruct (str_eqb p q) eqn:Hpq; simpl.
    - apply str_eqb_eq in Hpq; subst q. destruct (existsb (str_eqb p) qs); [reflexivity|].
      unfold Manifest.remove_entry. destruct (Manifest.get_entry m p) eqn:He; [|exact He].
      unfold Manifest.get_entry; simpl. rewrite dict_get_pop, str_eqb_refl. reflexivity.
    - destruct (existsb (str_eqb p) qs); [reflexivity|].
      unfold Manifest.remove_entry. destruct (Manifest.get_entry m q); [|reflexivity].
      unfold Manifest.get_entry; simpl. rewrite dict_get_pop.
      destruct (str_eqb q p) eqn:Hqp; [|reflexivity].
      apply str_eqb_eq in Hqp; subst. rewrite str_eqb_refl in Hpq; discriminate.
  Qed.

Lemma count_removes deleted m :
    Manifest.backup_count (fold_left (fun m path => Manifest.remove_entry m path now) deleted m) =
    Manifest.backup_count m.
  Proof.
    revert m; induction deleted as [|q qs IH]; intro m; simpl; [reflexivity|].
    rewrite IH. unfold Manifest.remove_entry. destruct (Manifest.get_entry m q); reflexivity.
  Qed.
End UpdateFromBackup.

Lemma get_entry_bump m now p : Manifest.get_entry (bump_count m now) p = Manifest.get_entry m p.
Proof. reflexivity. Qed.

Lemma existsb_str_In p l : existsb (str_eqb p) l = true <-> In p l.
Proof.
  rewrite existsb_exists. split.
  - intros (q & Hq & Heq). apply str_eqb_eq in Heq. subst; exact Hq.
  - intro H. exists p. split; [exact H|apply str_eqb_refl].
Qed.

Lemma last_with_in p files :
  In p (map FileInfo.relative_path files) ->
  exists g, last_with p files = Some g /\ FileInfo.relative_path g = p.
Proof.
  induction files as [|f fs IH]; simpl; [tauto|]. intros Hin.
  destruct (last_with p fs) as [g|] eqn:Hl.
  - exists g; split; [reflexivity|].
    destruct Hin as [Heq|Hin]; [|destruct (IH Hin) as (g' & Hg' & Hr); congruence].
    subst p. clear IH.
    induction fs as [|f' fs' IH']; simpl in Hl; [discriminate|].
    destruct (last_with (FileInfo.relative_path f) fs') eqn:Hl'; [apply IH'; congruence|].
    destruct (str_eqb (FileInfo.relative_path f') (FileInfo.relative_path f)) eqn:He; [|discriminate].
    injection Hl as <-. apply str_eqb_eq in He. exact He.
  - destruct Hin as [Heq|Hin]; [|destruct (IH Hin) as (g' & Hg' & _); congruence].
    subst p. rewrite str_eqb_refl. exists f; split; reflexivity.
Qed.

Lemma last_with_none p files :
  ~ In p (map FileInfo.relative_path files) -> last_with p files = None.
Proof.
  induction files as [|f fs IH]; simpl; intro Hn; [reflexivity|].
  rewrite IH by tauto.
  destruct (str_eqb (FileInfo.relative_path f) p) eqn:He; [|reflexivity].
  apply str_eqb_eq in He. tauto.
Qed.

(** Example: backing up a file [b] and deleting [b] in the same call. *)
Definition ex_file_b : FileInfo.t := FileInfo.mk (lit "/s/b") (lit "b") 5 7%float None.

(** C3, as stated, fails: a backed-up file whose path is also among the
    deleted paths has no entry afterwards (removals run after the adds). *)
Lemma update_from_backup_counterexample :
  ~ (forall file_info, In file_info [ex_file_b] ->
       Manifest.get_entry
         (update_from_backup (fun _ => Some 33188) 9%float (mkDatetime (lit "now"))
            ex_manifest [ex_file_b] [lit "b"])
         (FileInfo.relative_path file_info) <> None).
Proof.
  intro H. apply (H ex_file_b (or_introl eq_refl)). vm_compute. reflexivity.
Qed.

(** C3 (amended).  After [update_from_backup]: a backed-up file whose path
    is not among the deleted paths has an entry under its path, built from
    the last backed-up file with that path (its size, mtime, hash or the
    empty string when it has none, and [backed_up_at] the update time);
    every deleted path has no entry; every other path keeps its entry; and
    [backup_count] grew by one. *)
Theorem update_from_backup_spec (st_mode : FileInfo.t -> option Z) (backup_time : float)
    (now : datetime) (m : Manifest.t) (backed_up_files : list FileInfo.t)
    (deleted_paths : list pystr) :
  let m' := update_from_backup st_mode backup_time now m backed_up_files deleted_paths in
  (forall file_info, In file_info backed_up_files ->
     ~ In (FileInfo.relative_path file_info) deleted_paths ->
     exists last, last_with (FileInfo.relative_path file_info) backed_up_files = Some last /\
       FileInfo.relative_path last = FileInfo.relative_path file_info /\
       Manifest.get_entry m' (FileInfo.relative_path file_info) =
         Some (ManifestEntry.mk (FileInfo.relative_path last)
                 (match FileInfo.file_hash last with Some h => h | None => [] end)
                 (FileInfo.size last) (FileInfo.mtime last)
                 (match st_mode last with Some md => md | None => 420 end)
                 backup_time)) /\
  (forall p, In p deleted_paths -> Manifest.get_entry m' p = None) /\
  (forall p, ~ In p deleted_paths -> ~ In p (map FileInfo.relative_path backed_up_files) ->
     Manifest.get_entry m' p = Manifest.get_entry m p) /\
  Manifest.backup_count m' = Manifest.backup_count m + 1.
Proof.
  intro m'. unfold m'.
  assert (Hget : forall p, Manifest.get_entry
            (update_from_backup st_mode backup_time now m backed_up_files deleted_paths) p =
          if existsb (str_eqb p) deleted_paths then None
          else match last_with p backed_up_files with
               | Some f => Some (backed_entry st_mode backup_time f)
               | None => Manifest.get_entry m p
               end).
  { intro p. unfold update_from_backup. cbv zeta.
    rewrite get_entry_bump, get_entry_removes, get_entry_adds. reflexivity. }
  split; [|split; [|split]].
  - intros fi Hin Hnd.
    destruct (last_with_in (FileInfo.relative_path fi) backed_up_files) as (g & Hg & Hr);
      [apply in_map; exact Hin|].
    exists g. split; [exact Hg|]. split; [exact Hr|].
    rewrite Hget, Hg. destruct (existsb (str_eqb (FileInfo.relative_path fi)) deleted_paths) eqn:He.
    + apply existsb_str_In in He. contradiction.
    + reflexivity.
  - intros p Hp. rewrite Hget. apply existsb_str_In in Hp. rewrite Hp. reflexivity.
  - intros p Hnd Hnb. rewrite Hget, last_with_none by exact Hnb.
    destruct (existsb (str_eqb p) deleted_paths) eqn:He; [|reflexivity].
    apply existsb_str_In in He. contradiction.
  - unfold update_from_backup. cbv zeta. unfold bump_count at 1; simpl.
    rewrite count_removes, count_adds. reflexivity.
Qed.

(** ** [to_dict] / [from_dict] and [save] / [load] *)

Definition relabel (kv : pystr * ManifestEntry.t) : pystr * ManifestEntry.t :=
  let '(k, e) := kv in
  (k, ManifestEntry.mk k (ManifestEntry.file_hash e) (ManifestEntry.size e) (ManifestEntry.mtime e)
        (ManifestEntry.permissions e) (ManifestEntry.backed_up_at e)).

Lemma entry_from_dict_to_dict k e :
  entry_from_dict k (entry_to_dict e) = ret (snd (relabel (k, e))).
Proof. destruct e; reflexivity. Qed.

Lemma existsb_key_false {V} k (d : Dict.t V) :
  ~ In k (Dict.keys d) -> existsb (fun kv => str_eqb (fst kv) k) d = false.
Proof.
  induction d as [|[k0 v0] d IH]; simpl; intro Hn; [reflexivity|].
  destruct (str_eqb k0 k) eqn:He; [apply str_eqb_eq in He; tauto|]. simpl. apply IH; tauto.
Qed.

Lemma load_entries_to_dict es acc :
  NoDup (Dict.keys acc ++ Dict.keys es) ->
  load_entries (map (fun kv => (fst kv, entry_to_dict (snd kv))) es) acc =
  ret (acc ++ map relabel es).
Proof.
  revert acc; induction es as [|[k e] es IH]; intros acc Hnd.
  - simpl. rewrite app_nil_r. reflexivity.
  - cbn [load_entries map fst snd]. rewrite entry_from_dict_to_dict. unfold pybind, ret at 1.
    assert (Hk : ~ In k (Dict.keys acc)).
    { intro Hin. apply NoDup_remove_2 in Hnd. apply Hnd. apply in_or_app; left; exact Hin. }
    unfold Dict.set. rewrite existsb_key_false by exact Hk.
    rewrite IH.
    + simpl. rewrite <- app_assoc. reflexivity.
    + unfold Dict.keys in *. rewrite map_app. simpl. rewrite <- app_assoc. exact Hnd.
Qed.

Lemma from_dict_to_dict fromiso now (m : Manifest.t) :
  NoDup (Dict.keys (Manifest.entries m)) ->
  fromiso (isoformat (Manifest.created m)) = Some (Manifest.created m) ->
  fromiso (isoformat (Manifest.updated m)) = Some (Manifest.updated m) ->
  from_dict fromiso now (to_dict m) =
  ret (Manifest.mk (Manifest.version m) (Manifest.format m) (Manifest.created m)
         (Manifest.updated m) (Manifest.source m) (Manifest.hostname m) (Manifest.backup_count m)
         (map relabel (Manifest.entries m))).
Proof.
  intros Hnd Hc Hu. destruct m as [v f c u src hn bc es]; simpl in *.
  unfold from_dict, to_dict. simpl.
  unfold get_datetime. simpl. rewrite Hc, Hu.
  rewrite (load_entries_to_dict es []) by exact Hnd.
  destruct f; reflexivity.
Qed.

Lemma get_relabel_fields p es :
  option_map entry_fields (Dict.get p (map relabel es)) = option_map entry_fields (Dict.get p es).
Proof.
  unfold Dict.get. induction es as [|[k e] es IH]; simpl; [reflexivity|].
  destruct (str_eqb k p); [destruct e; reflexivity|exact IH].
Qed.

Lemma load_document fromiso now j t :
  load fromiso now (mkDisk (Some (Document j)) t) =
  match from_dict fromiso now j with
  | Ret m b => Ret (Some m) b
  | Raise e => if load_catches e then ret None else Raise e
  end.
Proof.
  unfold load; cbn [manifest_file read_json]. unfold ret at 1; cbn [pybind].
  destruct (from_dict fromiso now j) as [m b|e]; simpl; [rewrite andb_true_r; reflexivity|].
  destruct (load_catches e); reflexivity.
Qed.

Lemma save_success fault m disk disk' :
  save fault m disk = SaveReturned true disk' ->
  disk' = mkDisk (Some (Document (to_dict m))) None.
Proof.
  unfold save. destruct fault; try discriminate;
    destruct (negb (json_encodable (to_dict m))); try discriminate;
    intro H; injection H as <-; reflexivity.
Qed.

(** C4.  A successful [save] followed by [load] gives back a manifest with
    the same source, hostname, backup_count and number of entries, and for
    every path the same hash, size, mtime, permissions and backed_up_at;
    [from_dict] after [to_dict] keeps all of these ([from_dict_to_dict]).
    The manifest's [entries] is a dict (its keys are distinct), and
    [datetime.fromisoformat] reads back what [isoformat] wrote. *)
Theorem save_load_roundtrip (fromisoformat : pystr -> option datetime) (now : datetime)
    (fault : save_fault) (m : Manifest.t) (disk disk' : Disk) :
  NoDup (Dict.keys (Manifest.entries m)) ->
  fromisoformat (isoformat (Manifest.created m)) = Some (Manifest.created m) ->
  fromisoformat (isoformat (Manifest.updated m)) = Some (Manifest.updated m) ->
  save fault m disk = SaveReturned true disk' ->
  exists m',
    load fromisoformat now disk' = Ret (Some m') true /\
    Manifest.source m' = Manifest.source m /\
    Manifest.hostname m' = Manifest.hostname m /\
    Manifest.backup_count m' = Manifest.backup_count m /\
    length (Manifest.entries m') = length (Manifest.entries m) /\
    (forall p, option_map entry_fields (Manifest.get_entry m' p) =
               option_map entry_fields (Manifest.get_entry m p)).
Proof.
  intros Hnd Hc Hu Hs. apply save_success in Hs. subst disk'.
  eexists. split.
  - rewrite load_document, (from_dict_to_dict fromisoformat now m Hnd Hc Hu). reflexivity.
  - destruct m; simpl. repeat split; [apply length_map|].
    intro p. unfold Manifest.get_entry; simpl. apply get_relabel_fields.
Qed.

Definition iso_parse (s : pystr) : option datetime := Some (mkDatetime s).

Lemma save_load_roundtrip_witness :
  NoDup (Dict.keys (Manifest.entries ex_manifest)) /\
  save NoFault ex_manifest (mkDisk None None)
    = SaveReturned true (mkDisk (Some (Document (to_dict ex_manifest))) None) /\
  exists m',
    load iso_parse (mkDatetime (lit "now")) (mkDisk (Some (Document (to_dict ex_manifest))) None)
      = Ret (Some m') true /\
    Manifest.source m' = Manifest.source ex_manifest /\
    Manifest.hostname m' = Manifest.hostname ex_manifest /\
    Manifest.backup_count m' = Manifest.backup_count ex_manifest /\
    length (Manifest.entries m') = length (Manifest.entries ex_manifest) /\
    (forall p, option_map entry_fields (Manifest.get_entry m' p) =
               option_map entry_fields (Manifest.get_entry ex_manifest p)).
Proof.
  assert (Hnd : NoDup (Dict.keys (Manifest.entries ex_manifest)))
    by (repeat constructor; simpl; tauto).
  assert (Hs : save NoFault ex_manifest (mkDisk None None)
               = SaveReturned true (mkDisk (Some (Document (to_dict ex_manifest))) None))
    by (vm_compute; reflexivity).
  split; [exact Hnd|]. split; [exact Hs|].
  exact (save_load_roundtrip iso_parse (mkDatetime (lit "now")) NoFault ex_manifest
           (mkDisk None None) _ Hnd eq_refl eq_refl Hs).
Defined.

(** ** [load] on malformed manifests *)

(** C5 (code defect).  [load] catches only JSONDecodeError and OSError, so
    a manifest file holding valid JSON that is not an object ([[]]), an
    object with an unknown [format], or bytes that are not UTF-8, makes
    [load] raise instead of returning [None]. *)
Theorem load_malformed_raises :
  load iso_parse (mkDatetime (lit "now")) (mkDisk (Some (Document (JList []))) None)
    = Raise AttributeError /\
  load iso_parse (mkDatetime (lit "now"))
       (mkDisk (Some (Document (JObj [(lit "format", JStr (lit "xml"))]))) None)
    = Raise ValueError /\
  load iso_parse (mkDatetime (lit "now")) (mkDisk (Some NotUtf8) None)
    = Raise UnicodeDecodeError /\
  load iso_parse (mkDatetime (lit "now")) (mkDisk (Some Garbage) None) = Ret None true.
Proof. vm_compute. repeat split. Qed.

(** ** [save] when a step fails *)

(** A manifest tracking a file whose name holds the byte 0xFF, which
    [os.fsdecode] turns into the lone surrogate U+DCFF. *)
Definition ex_manifest_undecodable_name : Manifest.t :=
  Manifest.with_entries ex_manifest
    [(lit "a", ex_entry); (lit "report" ++ [56575], ManifestEntry.mk (lit "report" ++ [56575]) [] 3 0%float 420 0%float)].

Definition ex_disk_saved : Disk := mkDisk (Some (Document (to_dict ex_manifest))) None.

(** C6 (code defect).  Saving a manifest that holds a surrogate code point
    makes [json.dump] raise UnicodeEncodeError, which the handler does not
    catch: [save] raises instead of returning False, and the partly written
    temporary file stays behind (the old manifest file is untouched). *)
Theorem save_unencodable_raises :
  save NoFault ex_manifest_undecodable_name ex_disk_saved
    = SaveRaised UnicodeEncodeError
        (mkDisk (Some (Document (to_dict ex_manifest))) (Some Truncated)).
Proof. vm_compute. reflexivity. Qed.

(** ** The validation guards of [run_backup] and [restore] *)

(** C7 (code defect).  When the source directory is missing and the log
    file, if one is kept, can be written, [run_backup] does no scanning or
    copying but returns a result with [errors = 0] ([_validate_paths] only
    logs); [restore], in the same situation (backup directory missing), sets
    [errors = 1]. *)
Theorem run_backup_validation_no_error (env : PathsEnv)
    (rest : BackupResult -> BackupResult * list effect) :
  source_exists env = false ->
  log_to_file env = false \/ log_write_ok env = true ->
  run_backup env rest =
    (Ret BackupResult_new true, if log_to_file env then [WriteLog] else []) /\
  br_errors BackupResult_new = 0 /\
  fst (restore (mkRestoreEnv false None (Ret None true)) false
         (fun _ _ r => (r, [ScanSource]))) = set_errors RestoreResult_new 1.
Proof.
  intros Hs Hl. unfold run_backup, validate_paths. rewrite Hs. simpl.
  split; [|split; reflexivity].
  destruct Hl as [-> | ->]; simpl; [reflexivity|].
  destruct (log_to_file env); reflexivity.
Qed.

Lemma run_backup_validation_no_error_witness :
  source_exists (mkPathsEnv false true true true true) = false /\
  (log_to_file (mkPathsEnv false true true true true) = false \/
   log_write_ok (mkPathsEnv false true true true true) = true) /\
  run_backup (mkPathsEnv false true true true true) (fun r => (r, [ScanSource])) =
    (Ret BackupResult_new true, [WriteLog]).
Proof.
  assert (Hs : source_exists (mkPathsEnv false true true true true) = false) by reflexivity.
  assert (Hl : log_to_file (mkPathsEnv false true true true true) = false \/
               log_write_ok (mkPathsEnv false true true true true) = true)
    by (right; reflexivity).
  split; [exact Hs|]. split; [exact Hl|].
  exact (proj1 (run_backup_validation_no_error (mkPathsEnv false true true true true)
                  (fun r => (r, [ScanSource])) Hs Hl)).
Defined.

(** The guards of [restore] stop before any file work, with every counter
    zero but [errors = 1]. *)
Lemma restore_validation_guard env overwrite rest :
  (backup_target_exists env = false \/
   (target_path env = None /\
    match manifest_loaded env with
    | Ret (Some m) _ => str_truthy (Manifest.source m) = false
    | _ => True
    end)) ->
  restore env overwrite rest = (set_errors RestoreResult_new 1, []).
Proof.
  intros [H|[Ht Hm]]; unfold restore; [rewrite H; reflexivity|].
  destruct (backup_target_exists env); [|reflexivity]. simpl. rewrite Ht.
  destruct (manifest_loaded env) as [[m|] b|e]; try reflexivity.
  rewrite Hm. reflexivity.
Qed.

(** ** Float comparisons *)

Lemma SFcompare_swap x y :
  SFcompare y x = option_map CompOpp (SFcompare x y).
Proof.
  destruct x as [sx|sx| |sx mx ex], y as [sy|sy| |sy my ey]; simpl;
    try reflexivity; try (destruct sx; reflexivity); try (destruct sy; reflexivity);
    try (destruct sx, sy; reflexivity).
  assert (Hm := Pos.compare_cont_antisym mx my Eq); simpl in Hm.
  destruct sx, sy; simpl; try reflexivity;
    rewrite (Z.compare_antisym ey ex); destruct (ey ?= ex)%Z; simpl; try reflexivity;
    rewrite <- Hm; destruct (Pos.compare_cont Eq mx my); reflexivity.
Qed.

Lemma leb_not_ltb a b :
  PrimFloat.is_nan a = false -> PrimFloat.is_nan b = false ->
  PrimFloat.leb a b = negb (PrimFloat.ltb b a).
Proof.
  unfold PrimFloat.is_nan. rewrite !FloatAxioms.eqb_spec, FloatAxioms.leb_spec, FloatAxioms.ltb_spec.
  unfold SFeqb, SFleb, SFltb. rewrite (SFcompare_swap (Prim2SF a) (Prim2SF b)).
  intros Ha Hb.
  assert (Hc : SFcompare (Prim2SF a) (Prim2SF b) <> None)
    by (destruct (Prim2SF a), (Prim2SF b); simpl in *; congruence).
  destruct (SFcompare (Prim2SF a) (Prim2SF b)) as [[]|]; simpl; congruence.
Qed.

(** ** Conflict handling of [_restore_single_file] *)

Definition ex_backup_copy : FileState := mkFileState [104; 105] 200%float.
Definition ex_existing_target : FileState := mkFileState [111; 108; 100] 100%float.

(** C8, as stated, fails: in a dry run the OVERWRITE policy reports the
    file as overwritten ([UPDATED], counted in [overwritten_files]) but the
    existing target is left as it was. *)
Lemma restore_conflict_counterexample :
  restore_single_file OVERWRITE true CopyOk ex_backup_copy (Some ex_existing_target)
    = ((true, UPDATED, "DRY-RUN"%string), Some ex_existing_target) /\
  rr_overwritten_files
    (record_restore RestoreResult_new
       (fst (restore_single_file OVERWRITE true CopyOk ex_backup_copy (Some ex_existing_target)))
       (Some 2))
    = 1 /\
  snd (restore_single_file OVERWRITE true CopyOk ex_backup_copy (Some ex_existing_target))
    <> Some ex_backup_copy.
Proof.
  split; [reflexivity|]. split; [reflexivity|].
  vm_compute. intro H. discriminate H.
Qed.

(** C8 (amended).  Restoring one file onto an existing target, outside a
    dry run, with mtimes that are numbers (as [stat] gives): under SKIP the
    file is reported skipped and the target is unchanged; under OVERWRITE,
    and under NEWER when the backup copy's mtime is strictly greater than
    the target's, a successful copy replaces the target with the backup copy
    and the file is counted as overwritten, while a failed copy leaves the
    target unchanged and is counted as an error (and nothing else); under
    NEWER otherwise the file is reported skipped and the target is
    unchanged. *)
Theorem restore_conflict (policy : ConflictResolution) (copy : copy_outcome)
    (src target : FileState) (r : RestoreResult) (size : option Z) :
  PrimFloat.is_nan (st_mtime src) = false ->
  PrimFloat.is_nan (st_mtime target) = false ->
  let outcome := fst (restore_single_file policy false copy src (Some target)) in
  let after := snd (restore_single_file policy false copy src (Some target)) in
  let r' := record_restore r outcome size in
  (policy = SKIP ->
     after = Some target /\ outcome = (true, SKIPPED, "File exists"%string) /\
     rr_skipped_files r' = rr_skipped_files r + 1) /\
  ((policy = OVERWRITE \/
    (policy = NEWER /\ PrimFloat.ltb (st_mtime target) (st_mtime src) = true)) ->
     copy = CopyOk ->
     after = Some src /\ outcome = (true, UPDATED, "OK"%string) /\
     rr_overwritten_files r' = rr_overwritten_files r + 1) /\
  (policy = NEWER -> PrimFloat.ltb (st_mtime target) (st_mtime src) = false ->
     after = Some target /\ outcome = (true, SKIPPED, "Target is newer"%string) /\
     rr_skipped_files r' = rr_skipped_files r + 1) /\
  ((policy = OVERWRITE \/
    (policy = NEWER /\ PrimFloat.ltb (st_mtime target) (st_mtime src) = true)) ->
     copy <> CopyOk ->
     after = Some target /\ fst (fst outcome) = false /\ snd (fst outcome) = ERROR /\
     r' = set_errors r (rr_errors r + 1)).
Proof.
  intros Hs Ht outcome after r'. subst outcome after r'.
  assert (Hle := leb_not_ltb (st_mtime src) (st_mtime target) Hs Ht).
  unfold restore_single_file. rewrite Hle.
  split; [|split; [|split]].
  - intros ->. repeat split.
  - intros [->|[-> Hlt]] ->; [|rewrite Hlt]; cbn;
      (split; [reflexivity|split; [reflexivity|destruct size; reflexivity]]).
  - intros -> Hlt. rewrite Hlt. repeat split.
  - intros [->|[-> Hlt]] Hc; [|rewrite Hlt]; simpl;
      (destruct copy; [congruence| |]; repeat split).
Qed.

Lemma restore_conflict_witness :
  PrimFloat.is_nan (st_mtime ex_backup_copy) = false /\
  PrimFloat.is_nan (st_mtime ex_existing_target) = false /\
  snd (restore_single_file NEWER false CopyOk ex_backup_copy (Some ex_existing_target))
    = Some ex_backup_copy /\
  snd (restore_single_file OVERWRITE false (CopyOSError "28") ex_backup_copy
         (Some ex_existing_target)) = Some ex_existing_target /\
  record_restore RestoreResult_new
    (fst (restore_single_file OVERWRITE false (CopyOSError "28") ex_backup_copy
            (Some ex_existing_target))) (Some 2)
    = set_errors RestoreResult_new 1.
Proof.
  assert (Hs : PrimFloat.is_nan (st_mtime ex_backup_copy) = false) by reflexivity.
  assert (Ht : PrimFloat.is_nan (st_mtime ex_existing_target) = false) by reflexivity.
  split; [exact Hs|]. split; [exact Ht|].
  split.
  - exact (proj1 (proj1 (proj2 (restore_conflict NEWER CopyOk ex_backup_copy ex_existing_target
                                   RestoreResult_new (Some 2) Hs Ht))
                     (or_intror (conj eq_refl eq_refl)) eq_refl)).
  - assert (Hc : CopyOSError "28" <> CopyOk) by discriminate.
    destruct (proj2 (proj2 (proj2 (restore_conflict OVERWRITE (CopyOSError "28") ex_backup_copy
                                     ex_existing_target RestoreResult_new (Some 2) Hs Ht)))
                (or_introl eq_refl) Hc) as (Ha & _ & _ & Hr).
    split; [exact Ha|exact Hr].
Defined.

(** ** Exclusion filter and restore collection *)

Section Filters.
Variable lower : pystr -> pystr.
Variable regex_match : pystr -> pystr -> bool.
Variable is_virtual_env : Path -> bool.
Variable fnmatch : pystr -> pystr -> bool.

Lemma mem_lower_exact exclusions e :
    In e exclusions -> is_glob e = false ->
    mem (lower e) (map lower (filter (fun e => negb (is_glob e)) exclusions)) = true.
  Proof.
    intros Hin Hg. unfold mem. apply existsb_str_In, in_map, filter_In.
    rewrite Hg. split; [exact Hin|reflexivity].
  Qed.

  (** C9.  A filter built from exclusion names without wildcards excludes a
      path whose last component equals one of them after [str.lower()] on
      both sides (so [.../NODE_MODULES] with [node_modules] configured), and
      it does so by the exact-name rule, the first one checked, before the
      extension and pattern rules. *)
Theorem should_exclude_exact (exclusions excluded_extensions : list pystr)
      (name : pystr) (path : Path) :
    In name exclusions -> is_glob name = false ->
    lower (path_name path) = lower name ->
    should_exclude lower regex_match is_virtual_env
      (ExclusionFilter_init lower exclusions excluded_extensions) path
    = (true, lit "Exact match: " ++ lower (path_name path)).
  Proof.
    intros Hin Hg Hl. unfold should_exclude, ExclusionFilter_init; simpl.
    rewrite Hl, (mem_lower_exact exclusions name Hin Hg). reflexivity.
  Qed.

  (** C10.  [_collect_files] leaves out every entry whose relative path
      starts with [_backup_logs] or [.smartbackup], whatever the patterns,
      also user files that merely start so ([.smartbackup_notes.txt]). *)
Theorem collect_files_skips_internal (listing : list (pystr * bool)) (patterns : list pystr)
      (relative : pystr) :
    startswith relative (lit "_backup_logs") = true \/
    startswith relative (lit ".smartbackup") = true ->
    ~ In relative (collect_files fnmatch listing patterns).
  Proof.
    intros Hp Hin. unfold collect_files in Hin.
    apply in_map_iff in Hin as ([rel isf] & Hrel & Hf). simpl in Hrel; subst rel.
    apply filter_In in Hf as [_ Hk]. destruct isf; simpl in Hk; [|discriminate].
    destruct Hp as [Hp|Hp]; rewrite Hp in Hk; [discriminate|].
    rewrite orb_true_r in Hk. discriminate.
  Qed.
End Filters.

Lemma should_exclude_exact_witness :
  In (lit "node_modules") [lit "node_modules"; lit "*.pyc"] /\
  is_glob (lit "node_modules") = false /\
  ascii_lower (path_name [lit "home"; lit "NODE_MODULES"]) = ascii_lower (lit "node_modules") /\
  should_exclude ascii_lower (fun _ _ => false) (fun _ => false)
    (ExclusionFilter_init ascii_lower [lit "node_modules"; lit "*.pyc"] [])
    [lit "home"; lit "NODE_MODULES"]
  = (true, lit "Exact match: " ++ ascii_lower (path_name [lit "home"; lit "NODE_MODULES"])).
Proof.
  assert (Hin : In (lit "node_modules") [lit "node_modules"; lit "*.pyc"]) by (left; reflexivity).
  assert (Hg : is_glob (lit "node_modules") = false) by reflexivity.
  assert (Hl : ascii_lower (path_name [lit "home"; lit "NODE_MODULES"]) = ascii_lower (lit "node_modules"))
    by reflexivity.
  split; [exact Hin|]. split; [exact Hg|]. split; [exact Hl|].
  exact (should_exclude_exact ascii_lower (fun _ _ => false) (fun _ => false)
           [lit "node_modules"; lit "*.pyc"] [] (lit "node_modules") [lit "home"; lit "NODE_MODULES"]
           Hin Hg Hl).
Defined.

Lemma collect_files_skips_internal_witness :
  (startswith (lit ".smartbackup_notes.txt") (lit "_backup_logs") = true \/
   startswith (lit ".smartbackup_notes.txt") (lit ".smartbackup") = true) /\
  ~ In (lit ".smartbackup_notes.txt")
      (collect_files (fun _ _ => true)
         [(lit ".smartbackup_notes.txt", true); (lit "notes.txt", true)] []).
Proof.
  assert (Hp : startswith (lit ".smartbackup_notes.txt") (lit "_backup_logs") = true \/
               startswith (lit ".smartbackup_notes.txt") (lit ".smartbackup") = true)
    by (right; reflexivity).
  split; [exact Hp|].
  exact (collect_files_skips_internal (fun _ _ => true)
           [(lit ".smartbackup_notes.txt", true); (lit "notes.txt", true)] []
           (lit ".smartbackup_notes.txt") Hp).
Defined.

(** * Further properties of the code *)

(** ** Change tests *)

(** [ManifestEntry.has_changed] is [FileInfo.needs_update] with hashing on,
    taking the entry's size, mtime and hash as the other file. *)
Theorem has_changed_needs_update (e : ManifestEntry.t) (f : FileInfo.t) (p : pystr) :
  ManifestEntry.has_changed e f =
  FileInfo.needs_update f
    (FileInfo.mk p (ManifestEntry.relative_path e) (ManifestEntry.size e)
       (ManifestEntry.mtime e) (Some (ManifestEntry.file_hash e))) true.
Proof.
  destruct e as [rp eh es em ep eb], f as [fp frp fs fm [fh|]]; reflexivity.
Qed.

Lemma filter_nil_iff {A} (g : A -> bool) l :
  filter g l = [] <-> forall x, In x l -> g x = false.
Proof.
  induction l as [|x l IH]; simpl; [split; [tauto|reflexivity]|].
  destruct (g x) eqn:Hg; split.
  - discriminate.
  - intro H. rewrite (H x (or_introl eq_refl)) in Hg. discriminate.
  - intros H y [<-|Hy]; [exact Hg|apply IH; assumption].
  - intro H. apply IH. intros y Hy. apply H; right; exact Hy.
Qed.

Lemma list_truthy_false {A} (l : list A) : ManifestDiff.list_truthy l = false <-> l = [].
Proof. destruct l; simpl; split; congruence. Qed.

(** A diff against a manifest reports no changes exactly when every scanned
    file has an entry under its relative path that [has_changed] finds
    unchanged, and every tracked path is the relative path of a scanned
    file. *)
Theorem has_changes_false_iff (source_files : Dict.t FileInfo.t) (m : Manifest.t) :
  ManifestDiff.has_changes (diff source_files (Some m)) = false <->
  (forall f, In f (Dict.values source_files) ->
     exists e, Manifest.get_entry m (FileInfo.relative_path f) = Some e /\
               ManifestEntry.has_changed e f = false) /\
  (forall p, In p (Dict.keys (Manifest.entries m)) ->
     In p (map FileInfo.relative_path (Dict.values source_files))).
Proof.
  rewrite diff_some. unfold ManifestDiff.has_changes; simpl.
  rewrite !orb_false_iff, !list_truthy_false, !filter_nil_iff.
  split.
  - intros [[Hn Hm] Hd]. split.
    + intros f Hf. specialize (Hn f Hf). specialize (Hm f Hf). unfold classify in *.
      destruct (Manifest.get_entry m (FileInfo.relative_path f)) as [e|]; [|discriminate].
      exists e; split; [reflexivity|].
      destruct (ManifestEntry.has_changed e f); [discriminate|reflexivity].
    + intros p Hp. specialize (Hd p Hp). apply negb_false_iff, existsb_str_In, in_rev in Hd.
      exact Hd.
  - intros [Hf Hk]. split; [split|].
    + intros f Hin. destruct (Hf f Hin) as (e & He & Hc). unfold classify. rewrite He, Hc.
      reflexivity.
    + intros f Hin. destruct (Hf f Hin) as (e & He & Hc). unfold classify. rewrite He, Hc.
      reflexivity.
    + intros p Hp. apply negb_false_iff, existsb_str_In, in_rev. rewrite rev_involutive.
      apply Hk; exact Hp.
Qed.

(** [files_to_backup] of a diff holds exactly the scanned files that have
    no manifest (or no entry in it), or whose entry [has_changed] finds
    changed. *)
Theorem files_to_backup_iff (source_files : Dict.t FileInfo.t) (manifest : option Manifest.t)
    (f : FileInfo.t) :
  In f (ManifestDiff.files_to_backup (diff source_files manifest)) <->
  In f (Dict.values source_files) /\
  match manifest with
  | None => True
  | Some m => match Manifest.get_entry m (FileInfo.relative_path f) with
              | None => True
              | Some e => ManifestEntry.has_changed e f = true
              end
  end.
Proof.
  destruct manifest as [m|].
  - rewrite diff_some. unfold ManifestDiff.files_to_backup; simpl.
    rewrite in_app_iff, !in_filter_bucket. unfold classify.
    destruct (Manifest.get_entry m (FileInfo.relative_path f)) as [e|];
      [destruct (ManifestEntry.has_changed e f)|]; intuition discriminate.
  - unfold diff, ManifestDiff.files_to_backup; simpl. rewrite app_nil_r. tauto.
Qed.

(** ** Loading a missing or corrupt manifest *)

(** When the manifest file is absent, cut short at a character boundary,
    not JSON, or cannot be opened, [load_or_create] returns a fresh manifest for the source path,
    with no entries and a backup count of 0; a diff against it reports
    every scanned file as new and nothing else. *)
Theorem load_or_create_fresh (fromisoformat : pystr -> option datetime) (now : datetime)
    (disk : Disk) (source_path : pystr) (source_files : Dict.t FileInfo.t) :
  manifest_file disk = None \/ manifest_file disk = Some Truncated \/
  manifest_file disk = Some Garbage \/ manifest_file disk = Some Unreadable ->
  load_or_create fromisoformat now disk source_path = Ret (create now source_path) true /\
  Manifest.entries (create now source_path) = [] /\
  Manifest.backup_count (create now source_path) = 0 /\
  diff source_files (Some (create now source_path)) =
  ManifestDiff.mk (Dict.values source_files) [] [] [].
Proof.
  intros Hd. split; [|split; [reflexivity|split; [reflexivity|]]].
  - unfold load_or_create, load.
    destruct Hd as [H|[H|[H|H]]]; rewrite H; reflexivity.
  - rewrite diff_some. simpl.
    induction (Dict.values source_files) as [|f l IH]; simpl; [reflexivity|].
    injection IH as Hn Hm Hu. congruence.
Qed.

Lemma load_or_create_fresh_witness :
  (manifest_file (mkDisk (Some Truncated) None) = None \/
   manifest_file (mkDisk (Some Truncated) None) = Some Truncated \/
   manifest_file (mkDisk (Some Truncated) None) = Some Garbage \/
   manifest_file (mkDisk (Some Truncated) None) = Some Unreadable) /\
  diff ex_source_files (Some (create (mkDatetime (lit "now")) (lit "/home/u/Documents"))) =
  ManifestDiff.mk (Dict.values ex_source_files) [] [] [].
Proof.
  assert (H : manifest_file (mkDisk (Some Truncated) None) = None \/
              manifest_file (mkDisk (Some Truncated) None) = Some Truncated \/
              manifest_file (mkDisk (Some Truncated) None) = Some Garbage \/
              manifest_file (mkDisk (Some Truncated) None) = Some Unreadable)
    by (right; left; reflexivity).
  split; [exact H|].
  exact (proj2 (proj2 (proj2 (load_or_create_fresh (fun _ => None) (mkDatetime (lit "now"))
           (mkDisk (Some Truncated) None) (lit "/home/u/Documents") ex_source_files H)))).
Defined.

(** ** [save] never damages the manifest file *)

(** Whether the handler's [temp_path.unlink] returns, for a failing step. *)
Definition cleanup_unlinks (fault : save_fault) : bool :=
  match fault with
  | NoFault => true
  | MkdirFails u | OpenFails u | WriteFails u | ReplaceFails u => u
  end.

(** Whatever step fails, [save] either returns True with the manifest file
    replaced by the manifest's document and no temporary file left, or
    leaves the manifest file exactly as it was.  When it returns False the
    temporary file is gone if the handler's [unlink] succeeded; otherwise
    it is left as it was (mkdir or open failed) or left behind, written in
    part or in full (a write or the replace failed). *)
Theorem save_manifest_file_intact (fault : save_fault) (m : Manifest.t) (disk : Disk) :
  match save fault m disk with
  | SaveReturned true d => manifest_file d = Some (Document (to_dict m)) /\ temp_file d = None
  | SaveReturned false d =>
      manifest_file d = manifest_file disk /\
      (cleanup_unlinks fault = true -> temp_file d = None) /\
      (cleanup_unlinks fault = false ->
       match fault with
       | MkdirFails _ | OpenFails _ => temp_file d = temp_file disk
       | _ => temp_file d <> None
       end)
  | SaveRaised _ d => manifest_file d = manifest_file disk
  end.
Proof.
  unfold save. destruct fault as [|u|u|u|u];
    try (destruct u; simpl; repeat split; intros; try discriminate;
         try reflexivity; intuition discriminate);
    destruct (negb (json_encodable (to_dict m))); try reflexivity;
    try (split; reflexivity);
    destruct u; simpl; repeat split; intros; try discriminate; try reflexivity;
    intuition discriminate.
Qed.

(** ** [verify] *)

Lemma flat_map_length_le1 {A B} (g : A -> list B) (l : list (pystr * A)) :
  (forall x, In x (map snd l) -> (length (g x) <= 1)%nat) ->
  (length (flat_map g (map snd l)) <= length l)%nat.
Proof.
  induction l as [|[k x] l IH]; simpl; intro H; [lia|].
  rewrite length_app.
  assert (length (flat_map g (map snd l)) <= length l)%nat
    by (apply IH; intros y Hy; apply H; right; exact Hy).
  specialize (H x (or_introl eq_refl)). lia.
Qed.

(** [verify] reports at most one error per entry, and none exactly when the
    file of every entry exists, can be examined, and has the recorded size;
    the content itself is never compared. *)
Theorem verify_spec (m : Manifest.t) (fs : pystr -> stat_result) :
  (verify m fs = [] <->
   forall e, In e (Dict.values (Manifest.entries m)) ->
     fs (ManifestEntry.relative_path e) = Stat (ManifestEntry.size e)) /\
  (length (verify m fs) <= length (Manifest.entries m))%nat.
Proof.
  split.
  - unfold verify, Dict.values. induction (Manifest.entries m) as [|[k e] es IH]; simpl.
    + split; [tauto|reflexivity].
    + destruct (fs (ManifestEntry.relative_path e)) as [|msg|sz] eqn:Hfs; simpl.
      * split; [discriminate|].
        intro H. rewrite (H e (or_introl eq_refl)) in Hfs. discriminate.
      * split; [discriminate|].
        intro H. rewrite (H e (or_introl eq_refl)) in Hfs. discriminate.
      * destruct (Z.eqb_spec sz (ManifestEntry.size e)) as [Hs|Hs]; simpl.
        -- rewrite IH. split.
           ++ intros H e' [<-|He']; [rewrite Hfs, Hs; reflexivity|apply H; exact He'].
           ++ intros H e' He'. apply H; right; exact He'.
        -- split; [discriminate|].
           intro H. rewrite (H e (or_introl eq_refl)) in Hfs. injection Hfs as Hfs. symmetry in Hfs. contradiction.
  - apply flat_map_length_le1. intros e _. cbv beta zeta.
    destruct (fs (ManifestEntry.relative_path e)); simpl; [lia|lia|].
    destruct (negb _); simpl; lia.
Qed.

(** ** Restoring files *)

(** [_restore_single_file] never reports success with an action other than
    copied, updated or skipped. *)
Lemma restore_single_file_actions cr dry copy src target :
  let '(success, action, _) := fst (restore_single_file cr dry copy src target) in
  success = true -> action = COPIED \/ action = UPDATED \/ action = SKIPPED.
Proof.
  unfold restore_single_file.
  destruct target as [t|], cr, dry, copy; simpl; try (intros; tauto);
    try (destruct (PrimFloat.leb (st_mtime src) (st_mtime t)); simpl; intros; try tauto);
    discriminate.
Qed.

Lemma stat_failures_cons cr dry f fs :
  stat_failures cr dry (f :: fs) = stat_failure cr dry f + stat_failures cr dry fs.
Proof. reflexivity. Qed.

Lemma stat_failures_none cr dry files :
  Forall (fun f => let '(_, _, _, size) := f in size <> None) files ->
  stat_failures cr dry files = 0.
Proof.
  induction 1 as [|[[[c s] t] size] fs Hf _ IH]; [reflexivity|].
  rewrite stat_failures_cons, IH. unfold stat_failure.
  destruct size; [|congruence]. reflexivity.
Qed.

Lemma restore_files_count cr dry files r :
  let r' := restore_files cr dry files r in
  rr_restored_files r' + rr_overwritten_files r' + rr_skipped_files r' + rr_errors r' =
  rr_restored_files r + rr_overwritten_files r + rr_skipped_files r + rr_errors r
  + Z.of_nat (length files) + stat_failures cr dry files.
Proof.
  unfold restore_files. revert r.
  induction files as [|[[[c s] t] size] fs IH]; intro r; [simpl; lia|].
  cbn [fold_left length]. rewrite IH, stat_failures_cons, Nat2Z.inj_succ. clear IH.
  unfold stat_failure.
  assert (Ha := restore_single_file_actions cr dry c s t).
  destruct (fst (restore_single_file cr dry c s t)) as [[success action] msg].
  unfold record_restore, set_errors. destruct success.
  - destruct (Ha eq_refl) as [ -> | [ -> | -> ] ]; destruct size;
      cbn -[Z.add Z.of_nat stat_failures]; lia.
  - destruct size; cbn -[Z.add Z.of_nat stat_failures]; lia.
Qed.

(** [_restore_files] counts every file it is given once, as restored,
    overwritten, skipped or as an error, and a second time, as an error,
    each file restored (copied or updated) whose [stat()] then raises: the
    counter is bumped before [stat] runs and the [except] adds an error.
    When every [stat] succeeds, each file is counted exactly once. *)
Theorem restore_files_accounting cr dry files r :
  let r' := restore_files cr dry files r in
  rr_restored_files r' + rr_overwritten_files r' + rr_skipped_files r' + rr_errors r' =
  rr_restored_files r + rr_overwritten_files r + rr_skipped_files r + rr_errors r
  + Z.of_nat (length files) + stat_failures cr dry files /\
  (Forall (fun f => let '(_, _, _, size) := f in size <> None) files ->
   rr_restored_files r' + rr_overwritten_files r' + rr_skipped_files r' + rr_errors r' =
   rr_restored_files r + rr_overwritten_files r + rr_skipped_files r + rr_errors r
   + Z.of_nat (length files)).
Proof.
  cbv zeta. rewrite (restore_files_count cr dry files r). split; [reflexivity|].
  intro Hall. rewrite (stat_failures_none cr dry files Hall). lia.
Qed.

Definition ex_restore_files : list (copy_outcome * FileState * option FileState * option Z) :=
  [(CopyOk, ex_backup_copy, None, Some 2);
   (CopyOk, ex_backup_copy, Some ex_existing_target, Some 2);
   (CopyPermissionError, ex_backup_copy, Some ex_existing_target, Some 2)].

Lemma restore_files_accounting_witness :
  Forall (fun f => let '(_, _, _, size) := f in size <> None) ex_restore_files /\
  let r' := restore_files OVERWRITE false ex_restore_files RestoreResult_new in
  rr_restored_files r' + rr_overwritten_files r' + rr_skipped_files r' + rr_errors r' = 3.
Proof.
  assert (H : Forall (fun f => let '(_, _, _, size) := f in size <> None) ex_restore_files)
    by (repeat constructor; discriminate).
  split; [exact H|].
  cbv zeta.
  rewrite (proj2 (restore_files_accounting OVERWRITE false ex_restore_files RestoreResult_new) H).
  reflexivity.
Defined.

(** A file that is copied but whose [stat()] then raises is counted both
    as restored and as an error. *)
Example restore_files_stat_failure_counted_twice :
  restore_files SKIP false [(CopyOk, ex_backup_copy, None, None)] RestoreResult_new
  = mkRestoreResult 0 1 0 0 1 0 0.
Proof. reflexivity. Qed.

(** A dry run never changes the file at the restore target. *)
Theorem restore_dry_run_no_write cr copy src target :
  snd (restore_single_file cr true copy src target) = target.
Proof.
  unfold restore_single_file.
  destruct target as [t|], cr; try reflexivity.
  destruct (PrimFloat.leb (st_mtime src) (st_mtime t)); reflexivity.
Qed.

(** The RENAME policy is not implemented: [_restore_single_file] treats it
    as OVERWRITE, replacing an existing target instead of writing the file
    under another name. *)
Theorem restore_rename_is_overwrite dry copy src target :
  restore_single_file RENAME dry copy src target =
  restore_single_file OVERWRITE dry copy src target.
Proof. unfold restore_single_file. destruct target; reflexivity. Qed.

(** ** [ChangeDetector.detect_changes] *)

Lemma detect_step_use_hash u bp stat st kv :
  detect_step u bp stat st kv = detect_step false bp stat st kv.
Proof.
  destruct st as [[n m] e], kv as [k f]. unfold detect_step.
  destruct (stat k) as [| |size mtime]; try reflexivity.
  unfold FileInfo.needs_update; simpl. rewrite !andb_false_r. reflexivity.
Qed.

(** The hash option of [ChangeDetector] has no effect: the backup side
    [FileInfo] it builds carries no hash, so [needs_update] never compares
    hashes, and [detect_changes] gives the same answer with or without it. *)
Theorem detect_changes_use_hash_irrelevant (use_hash : bool) (source_files : Dict.t FileInfo.t)
    (backup_path : pystr) (backup_exists : bool) (listing : list pystr)
    (stat : pystr -> backup_stat) :
  detect_changes use_hash source_files backup_path backup_exists listing stat =
  detect_changes false source_files backup_path backup_exists listing stat.
Proof.
  unfold detect_changes.
  generalize (@nil FileInfo.t, @nil FileInfo.t,
              if backup_exists then nodup pystr_eq_dec listing else []).
  induction source_files as [|kv sf IH]; intro st; simpl; [reflexivity|].
  rewrite detect_step_use_hash. apply IH.
Qed.

Section DetectLoop.
Variable use_hash : bool.
Variable backup_path : pystr.
Variable stat : pystr -> backup_stat.

Definition detect_new (kv : pystr * FileInfo.t) : list FileInfo.t :=
  match stat (fst kv) with BMissing => [snd kv] | _ => [] end.

Definition detect_modified (kv : pystr * FileInfo.t) : list FileInfo.t :=
  match stat (fst kv) with
  | BMissing => []
  | BStatFails => [snd kv]
  | BStat size mtime =>
      if FileInfo.needs_update (snd kv)
           (FileInfo.mk (path_join backup_path (fst kv)) (fst kv) size mtime None) use_hash
      then [snd kv] else []
  end.

Lemma detect_fold (sf : Dict.t FileInfo.t) n m e :
  let r := fold_left (detect_step use_hash backup_path stat) sf (n, m, e) in
  fst (fst r) = n ++ flat_map detect_new sf /\ snd (fst r) = m ++ flat_map detect_modified sf /\
  (forall p, In p (snd r) <-> In p e /\ ~ In p (Dict.keys sf)).
Proof.
  revert n m e. induction sf as [|[k f] sf IH]; intros n m e; simpl.
  - rewrite !app_nil_r. split; [reflexivity|split; [reflexivity|tauto]].
  - unfold detect_new at 1, detect_modified at 1; simpl.
    destruct (stat k) as [| |size mtime] eqn:Hs; simpl;
      [| |destruct (FileInfo.needs_update f _ use_hash)];
      match goal with
      | |- context [fold_left _ sf (?n0, ?m0, ?e0)] => destruct (IH n0 m0 e0) as (Hn & Hm & He)
      end;
      rewrite Hn, Hm; rewrite <- ?app_assoc; simpl;
      (split; [reflexivity|split; [reflexivity|]]);
      intro p; rewrite He, filter_In, negb_true_iff, str_eqb_neq; simpl; intuition congruence.
Qed.

Lemma in_flat_map_single (g : pystr * FileInfo.t -> list FileInfo.t) sf f :
  In f (flat_map g sf) <-> exists kv, In kv sf /\ In f (g kv).
Proof. apply in_flat_map. Qed.
End DetectLoop.

(** [detect_changes] reports a source file as new exactly when its backup
    copy does not exist; as modified exactly when the backup copy cannot be
    examined or [needs_update] finds it out of date; and as to delete the
    backup files (under [backup_path]) whose relative path is no key of the
    source files. *)
Theorem detect_changes_spec (use_hash : bool) (source_files : Dict.t FileInfo.t)
    (backup_path : pystr) (backup_exists : bool) (listing : list pystr)
    (stat : pystr -> backup_stat) :
  let '(new_files, modified_files, files_to_delete) :=
    detect_changes use_hash source_files backup_path backup_exists listing stat in
  (forall f, In f new_files <-> exists k, In (k, f) source_files /\ stat k = BMissing) /\
  (forall f, In f modified_files <->
     exists k, In (k, f) source_files /\
       (stat k = BStatFails \/
        exists size mtime, stat k = BStat size mtime /\
          FileInfo.needs_update f (FileInfo.mk (path_join backup_path k) k size mtime None)
            use_hash = true)) /\
  (forall d, In d files_to_delete <->
     exists p, d = path_join backup_path p /\ backup_exists = true /\ In p listing /\
               ~ In p (Dict.keys source_files)).
Proof.
  unfold detect_changes.
  assert (H := detect_fold use_hash backup_path stat source_files [] []
                 (if backup_exists then nodup pystr_eq_dec listing else [])).
  simpl in H. destruct (fold_left _ _ _) as [[n m] e]. simpl in H.
  destruct H as (-> & -> & He). simpl.
  split; [|split].
  - intro f. rewrite in_flat_map_single. split.
    + intros ([k g] & Hin & Hf). unfold detect_new in Hf; simpl in Hf.
      destruct (stat k) eqn:Hs; simpl in Hf; [|tauto|tauto].
      destruct Hf as [<-|[]]. exists k; split; [exact Hin|exact Hs].
    + intros (k & Hin & Hs). exists (k, f). split; [exact Hin|].
      unfold detect_new; simpl. rewrite Hs. left; reflexivity.
  - intro f. rewrite in_flat_map_single. split.
    + intros ([k g] & Hin & Hf). unfold detect_modified in Hf; simpl in Hf.
      destruct (stat k) as [| |size mtime] eqn:Hs; simpl in Hf; [tauto| |].
      * destruct Hf as [<-|[]]. exists k; split; [exact Hin|left; exact Hs].
      * destruct (FileInfo.needs_update g _ use_hash) eqn:Hu; simpl in Hf; [|tauto].
        destruct Hf as [<-|[]]. exists k; split; [exact Hin|right].
        exists size, mtime; split; [exact Hs|exact Hu].
    + intros (k & Hin & [Hs|(size & mtime & Hs & Hu)]); exists (k, f); split; try exact Hin;
        unfold detect_modified; simpl; rewrite Hs; [left; reflexivity|].
      rewrite Hu. left; reflexivity.
  - intro d. rewrite in_map_iff. split.
    + intros (p & <- & Hp). apply He in Hp as [Hp Hn].
      destruct backup_exists; [|destruct Hp].
      apply nodup_In in Hp. exists p; tauto.
    + intros (p & -> & Hb & Hp & Hn). exists p. split; [reflexivity|].
      apply He. subst backup_exists. split; [apply nodup_In; exact Hp|exact Hn].
Qed.

(** ** [FileScanner.scan] *)

Lemma dict_set_keys_nodup {V} k (v : V) d :
  NoDup (Dict.keys d) -> NoDup (Dict.keys (Dict.set k v d)).
Proof.
  intro Hnd. unfold Dict.set, Dict.keys.
  destruct (existsb (fun kv => str_eqb (fst kv) k) d) eqn:Hex.
  - rewrite map_map.
    replace (map (fun x => fst (if str_eqb (fst x) k then (k, v) else x)) d) with (map fst d);
      [exact Hnd|].
    apply map_ext_in. intros [k0 v0] _. simpl.
    destruct (str_eqb k0 k) eqn:H; [apply str_eqb_eq in H; subst; reflexivity|reflexivity].
  - rewrite map_app. simpl.
    apply Permutation_NoDup with (l := k :: map fst d); [apply Permutation_cons_append|].
    constructor; [|exact Hnd].
    intro Hin. apply in_map_iff in Hin as ([k0 v0] & Hk & Hin). simpl in Hk; subst k0.
    assert (existsb (fun kv => str_eqb (fst kv) k) d = true)
      by (apply existsb_exists; exists (k, v0); split; [exact Hin|apply str_eqb_refl]).
    congruence.
Qed.

Lemma dict_set_in {V} k (v : V) d kv :
  In kv (Dict.set k v d) -> kv = (k, v) \/ In kv d.
Proof.
  unfold Dict.set. destruct (existsb _ d).
  - intro H. apply in_map_iff in H as (kv0 & Heq & Hin).
    destruct (str_eqb (fst kv0) k); [left; congruence|right; congruence].
  - rewrite in_app_iff. simpl. intuition.
Qed.

(** Induction over directory trees, with the entries of a directory. *)
Fixpoint fs_node_ind' (P : fs_node -> Prop)
    (Hf : forall name st, P (FsFile name st))
    (Hd : forall name ch, match ch with Some l => Forall P l | None => True end ->
                          P (FsDir name ch))
    (Ho : forall name, P (FsOther name)) (n : fs_node) {struct n} : P n :=
  match n with
  | FsFile name st => Hf name st
  | FsDir name ch =>
      Hd name ch
        (match ch as c return match c with Some l => Forall P l | None => True end with
         | Some l =>
             (fix go (l : list fs_node) : Forall P l :=
                match l with
                | [] => @Forall_nil _ P
                | x :: r => @Forall_cons _ P x r (fs_node_ind' P Hf Hd Ho x) (go r)
                end) l
         | None => I
         end)
  | FsOther name => Ho name
  end.

Section ScanProps.
Variable lower : pystr -> pystr.
Variable regex_match : pystr -> pystr -> bool.
Variable is_virtual_env : Path -> bool.
Variable calculate_hash : pystr -> pystr.
Variable filter_ : ExclusionFilter.
Variable use_hash : bool.
Variable min_size_for_hash : Z.
Variable base_path : Path.

Definition excluded_path (p : Path) : bool :=
  fst (should_exclude lower regex_match is_virtual_env filter_ p).

(** No path from [base_path] down to [base_path ++ rel] is excluded. *)
Definition prefixes_ok (rel : list pystr) : Prop :=
  forall i, (1 <= i <= length rel)%nat -> excluded_path (base_path ++ firstn i rel) = false.

(** What a scanned file looks like: reached through non-excluded paths,
    keyed and named by its relative path, hashed by the code's rule. *)
Definition scanned_file (v : FileInfo.t) : Prop :=
  exists comps, comps <> [] /\ prefixes_ok comps /\
    FileInfo.relative_path v = path_str comps /\
    FileInfo.path v = path_str (base_path ++ comps) /\
    FileInfo.file_hash v = (if use_hash && (min_size_for_hash <=? FileInfo.size v)
                            then Some (calculate_hash (FileInfo.path v)) else None).

Definition scan_inv (files : Dict.t FileInfo.t) : Prop :=
  NoDup (Dict.keys files) /\
  forall k v, In (k, v) files -> k = FileInfo.relative_path v /\ scanned_file v.

Lemma prefixes_ok_snoc rel name :
  prefixes_ok rel -> excluded_path (base_path ++ rel ++ [name]) = false ->
  prefixes_ok (rel ++ [name]).
Proof.
  intros Hp He i Hi. rewrite length_app in Hi; simpl in Hi.
  destruct (Nat.eq_dec i (S (length rel))) as [->|Hne].
  - rewrite firstn_all2 by (rewrite length_app; simpl; lia). exact He.
  - rewrite firstn_app. replace (i - length rel)%nat with 0%nat by lia. simpl.
    rewrite app_nil_r. apply Hp. lia.
Qed.

Lemma scan_inv_set files k v :
  k = FileInfo.relative_path v ->
  scan_inv files -> scanned_file v -> scan_inv (Dict.set k v files).
Proof.
  intros -> [Hnd Hall] Hv. split; [apply dict_set_keys_nodup; exact Hnd|].
  intros k w Hin. apply dict_set_in in Hin as [Heq|Hin].
  - injection Heq as -> ->. split; [reflexivity|exact Hv].
  - apply Hall; exact Hin.
Qed.

Lemma scan_node_inv n : forall rel files,
  prefixes_ok rel -> scan_inv files ->
  scan_inv (scan_node lower regex_match is_virtual_env calculate_hash filter_ use_hash
              min_size_for_hash base_path rel n files).
Proof.
  induction n as [name st|name ch IHch|name] using fs_node_ind'; intros rel files Hp Hi;
    cbn [scan_node fs_node_name];
    destruct (fst (should_exclude lower regex_match is_virtual_env filter_
                     (base_path ++ rel ++ [name]))) eqn:Hse; try exact Hi.
  - destruct st as [[st_size st_mtime]|]; [|exact Hi].
    eapply scan_inv_set; [reflexivity|exact Hi|].
    exists (rel ++ [name]). split; [destruct rel; discriminate|].
    split; [apply prefixes_ok_snoc; assumption|].
    split; [reflexivity|]. split; [rewrite app_assoc; reflexivity|]. reflexivity.
  - destruct ch as [entries|]; [|exact Hi].
    assert (Hp' : prefixes_ok (rel ++ [name])) by (apply prefixes_ok_snoc; assumption).
    revert files Hi. induction entries as [|e l IHl]; intros files Hi; [exact Hi|].
    inversion IHch as [|e' l' He Hl]; subst.
    apply IHl; [exact Hl|]. apply He; assumption.
Qed.

Lemma scan_entries_inv rel l files :
  prefixes_ok rel -> scan_inv files ->
  scan_inv (scan_entries lower regex_match is_virtual_env calculate_hash filter_ use_hash
              min_size_for_hash base_path rel l files).
Proof.
  revert files. induction l as [|e l IH]; intros files Hp Hi; simpl; [exact Hi|].
  apply IH; [exact Hp|]. apply scan_node_inv; assumption.
Qed.

Lemma scan_inv_scan root :
  scan_inv (scan lower regex_match is_virtual_env calculate_hash filter_ use_hash
              min_size_for_hash base_path root).
Proof.
  destruct root as [entries|]; simpl.
  - apply scan_entries_inv.
    + intros i Hi. simpl in Hi. lia.
    + split; [constructor|intros k v []].
  - split; [constructor|intros k v []].
Qed.

(** [scan] keys every file by its own relative path, so the scanned files
    carry pairwise distinct relative paths. *)
Theorem scan_keys_relative_paths (root : option (list fs_node)) :
  let files := scan lower regex_match is_virtual_env calculate_hash filter_ use_hash
                 min_size_for_hash base_path root in
  NoDup (map FileInfo.relative_path (Dict.values files)) /\
  Forall (fun kv => FileInfo.relative_path (snd kv) = fst kv) files.
Proof.
  intro files. destruct (scan_inv_scan root) as [Hnd Hall]. fold files in Hnd, Hall.
  split.
  - unfold Dict.values. rewrite map_map.
    replace (map (fun x => FileInfo.relative_path (snd x)) files) with (Dict.keys files);
      [exact Hnd|].
    unfold Dict.keys. apply map_ext_in. intros [k v] Hin. simpl.
    apply (proj1 (Hall k v Hin)).
  - apply Forall_forall. intros [k v] Hin. simpl. symmetry. apply (proj1 (Hall k v Hin)).
Qed.

(** No file [scan] returns is excluded by the filter, nor lies below a
    directory the filter excludes: every path from [base_path] down to the
    file passes [should_exclude]. *)
Theorem scan_never_excluded (root : option (list fs_node)) :
  Forall (fun v =>
            exists comps, comps <> [] /\
              FileInfo.relative_path v = path_str comps /\
              FileInfo.path v = path_str (base_path ++ comps) /\
              forall i, (1 <= i <= length comps)%nat ->
                fst (should_exclude lower regex_match is_virtual_env filter_
                       (base_path ++ firstn i comps)) = false)
    (Dict.values (scan lower regex_match is_virtual_env calculate_hash filter_ use_hash
                    min_size_for_hash base_path root)).
Proof.
  destruct (scan_inv_scan root) as [_ Hall].
  apply Forall_forall. intros v Hv. apply in_map_iff in Hv as ([k v'] & <- & Hin). simpl.
  destruct (Hall k v' Hin) as [_ (comps & Hne & Hp & Hr & Hpath & _)].
  exists comps. split; [exact Hne|]. split; [exact Hr|]. split; [exact Hpath|]. exact Hp.
Qed.

(** [scan] hashes a file exactly when hashing is on and the file is at
    least [min_size_for_hash] bytes long. *)
Theorem scan_hash_rule (root : option (list fs_node)) :
  Forall (fun v =>
            FileInfo.file_hash v =
            if use_hash && (min_size_for_hash <=? FileInfo.size v)
            then Some (calculate_hash (FileInfo.path v)) else None)
    (Dict.values (scan lower regex_match is_virtual_env calculate_hash filter_ use_hash
                    min_size_for_hash base_path root)).
Proof.
  destruct (scan_inv_scan root) as [_ Hall].
  apply Forall_forall. intros v Hv. apply in_map_iff in Hv as ([k v'] & <- & Hin). simpl.
  destruct (Hall k v' Hin) as [_ (comps & _ & _ & _ & _ & Hh)]. exact Hh.
Qed.
End ScanProps.

(** ** Steps 2 to 9 of [run_backup] *)





Section BackupProps.
Variable fromisoformat : pystr -> option datetime.
Variable now : datetime.
Variable st_mode : FileInfo.t -> option Z.
Variable backup_time : float.
Variable copy : FileInfo.t -> FileAction -> bool * pystr.
Variable detect : Dict.t FileInfo.t -> list FileInfo.t * list FileInfo.t * list pystr.

















End BackupProps.

(** ** [Manifest.add_entry], [remove_entry] and [get_entry] *)

Lemma dict_get_none_existsb {V} k (d : Dict.t V) :
  Dict.get k d = None <-> existsb (fun kv => str_eqb (fst kv) k) d = false.
Proof.
  unfold Dict.get. induction d as [|[k0 v0] d IH]; simpl; [tauto|].
  destruct (str_eqb k0 k); simpl; [split; discriminate|exact IH].
Qed.

(** [get_entry] after [add_entry] finds the added entry under its relative
    path and what was there before under every other path; after
    [remove_entry] it finds nothing under the removed path.  [add_entry]
    grows [total_files] by one exactly when the path had no entry. *)
Theorem manifest_entry_roundtrip (m : Manifest.t) (e : ManifestEntry.t) (q p : pystr)
    (now : datetime) :
  Manifest.get_entry (Manifest.add_entry m e now) p =
    (if str_eqb (ManifestEntry.relative_path e) p then Some e else Manifest.get_entry m p) /\
  Manifest.get_entry (Manifest.remove_entry m q now) p =
    (if str_eqb q p then None else Manifest.get_entry m p) /\
  Manifest.total_files (Manifest.add_entry m e now) =
    Manifest.total_files m +
    (match Manifest.get_entry m (ManifestEntry.relative_path e) with
     | Some _ => 0 | None => 1 end).
Proof.
  split; [unfold Manifest.get_entry, Manifest.add_entry; simpl; apply dict_get_set|].
  split.
  - unfold Manifest.remove_entry. destruct (Manifest.get_entry m q) eqn:Hq.
    + unfold Manifest.get_entry; simpl. apply dict_get_pop.
    + destruct (str_eqb q p) eqn:E; [|reflexivity].
      apply str_eqb_eq in E; subst q. exact Hq.
  - unfold Manifest.total_files, Manifest.add_entry, Manifest.get_entry, Dict.set; simpl.
    destruct (Dict.get (ManifestEntry.relative_path e) (Manifest.entries m)) eqn:Hg.
    + assert (Hex : existsb (fun kv => str_eqb (fst kv) (ManifestEntry.relative_path e))
                      (Manifest.entries m) = true).
      { destruct (existsb _ _) eqn:Hx; [reflexivity|].
        apply dict_get_none_existsb in Hx. congruence. }
      rewrite Hex, length_map. lia.
    + apply dict_get_none_existsb in Hg. rewrite Hg, length_app. simpl. lia.
Qed.












